(** * Grateful Hearts backend: journal router and authentication dependency

    A shallow embedding of [routers/journal_routes.py],
    [security/dependencies.py], [models/journal.py] and
    [schemas/journal.py].

    The request handlers are written against an ORM session.  The session
    is embedded as a record of tables ([Session.t]), each table a list of
    rows in storage order; a handler takes the session and returns a
    [result] together with the session it leaves behind when it writes.
    Values are the ones the Python objects hold: an attribute that the
    code can set to [None] or to a string is typed so here.  What the
    database engine or the response serialiser would do with such a value
    (column constraints, type coercion) lies outside these sources and is
    not part of the embedding: [commit] stores the objects as they are. *)

From Stdlib Require Import ZArith Ascii String Lia.
From stdpp Require Import base option list sorting gmap strings.

Local Open Scope Z_scope.
Local Open Scope string_scope.
Local Open Scope list_scope.

(** ** Exceptions *)

Inductive exn :=
  | HTTPException (status_code : Z) (detail : string)
  | AttributeError (what : string)
  | TypeError (what : string).

Inductive result (A : Type) :=
  | Ok (a : A)
  | Raise (e : exn).
Arguments Ok {A} a.
Arguments Raise {A} e.

#[global] Instance result_ret : MRet result := λ A a, Ok a.
#[global] Instance result_bind : MBind result := λ A B f m,
  match m with
  | Ok a => f a
  | Raise e => Raise e
  end.

Definition HTTP_200_OK : Z := 200.
Definition HTTP_201_CREATED : Z := 201.
Definition HTTP_401_UNAUTHORIZED : Z := 401.
Definition HTTP_404_NOT_FOUND : Z := 404.

(** [raised_status r c]: [r] is an [HTTPException] with status code [c]. *)
Definition raised_status {A} (r : result A) (c : Z) : Prop :=
  ∃ detail, r = Raise (HTTPException c detail).

Definition is_ok {A} (r : result A) : bool :=
  match r with Ok _ => true | Raise _ => false end.

(** ** Python string helpers used by the authentication dependency *)

Module Py.

(** [str.lower] on the ASCII range. *)
Definition lower_char (c : ascii) : ascii :=
  let n := nat_of_ascii c in
  if ((65 <=? n) && (n <=? 90))%nat then ascii_of_nat (n + 32) else c.

Fixpoint lower (s : string) : string :=
  match s with
  | EmptyString => EmptyString
  | String c s' => String (lower_char c) (lower s')
  end.

(** White space stripped by [int(str)]: TAB..CR, FS..US and space. *)
Definition is_space (c : ascii) : bool :=
  let n := nat_of_ascii c in
  (((9 <=? n) && (n <=? 13)) || ((28 <=? n) && (n <=? 32)))%nat.

Definition digit_of (c : ascii) : option Z :=
  let n := nat_of_ascii c in
  if ((48 <=? n) && (n <=? 57))%nat then Some (Z.of_nat (n - 48)) else None.

Fixpoint lstrip (s : list ascii) : list ascii :=
  match s with
  | c :: s' => if is_space c then lstrip s' else s
  | [] => []
  end.

Definition strip (s : list ascii) : list ascii :=
  rev (lstrip (rev (lstrip s))).

(** Decimal digits, single underscores allowed between two digits. *)
Fixpoint digits (acc : Z) (after_digit : bool) (s : list ascii) : option Z :=
  match s with
  | [] => if after_digit then Some acc else None
  | c :: s' =>
      match digit_of c with
      | Some d => digits (10 * acc + d) true s'
      | None =>
          if after_digit && bool_decide (c = "_"%char)
          then digits acc false s'
          else None
      end
  end.

(** [int(s)] for a [str] argument: [None] stands for [ValueError].
    Digits and white space outside ASCII are not covered. *)
Definition int (s : string) : option Z :=
  match strip (list_ascii_of_string s) with
  | c :: r =>
      if bool_decide (c = "-"%char) then Z.opp <$> digits 0 false r
      else if bool_decide (c = "+"%char) then digits 0 false r
      else digits 0 false (c :: r)
  | [] => None
  end.

End Py.

(** ** Users *)

Module User.
(** Modelled from the spec: [models/user.py] is not among the sources.
    Of the User entity (spec section 3: "id, name, profile fields
    including profile_image_url") the handlers read these three
    attributes. *)
Record t := mk {
  id : Z;
  name : string;
  profile_image_url : option string;
}.
End User.

#[global] Instance User_eq_dec : EqDecision User.t.
Proof. solve_decision. Defined.

(** ** Data model ([models/journal.py]) *)

(** Naive UTC timestamps, as a count of microseconds. *)
Definition datetime := Z.

(** What the attribute [Journal.deleted_at] holds.  The column is declared
    [Optional[datetime]]; [delete_journal] assigns a [str] to it. *)
Inductive deleted_at_value :=
  | DeletedAtNone
  | DeletedAtTime (t : datetime)
  | DeletedAtStr (s : string).

#[global] Instance deleted_at_value_eq_dec : EqDecision deleted_at_value.
Proof. solve_decision. Defined.

Module Tag.
Record t := mk {
  id : Z;
  name : string;
}.
End Tag.

#[global] Instance Tag_eq_dec : EqDecision Tag.t.
Proof. solve_decision. Defined.

Module Journal.
(** [title] and [is_private] are declared [str] and [bool]; a table
    object is not validated on assignment, and [update_journal] may
    store [None] in them, hence the [option].  [tags] is the
    relationship collection the handlers navigate ([journal.tags],
    and [tag.journals] in the other direction); the rows of
    [journal_tag_link] behind it are written by the ORM, not by the
    handlers. *)
Record t := mk {
  id : Z;
  user_id : Z;
  title : option string;
  body_snippet : option string;
  html_content : option string;
  is_private : option bool;
  image_url : option string;
  is_deleted : bool;
  deleted_at : deleted_at_value;
  created_at : datetime;
  updated_at : datetime;
  tags : list Tag.t;
}.
Definition set_title (j : t) (v : option string) : t :=
  mk (id j) (user_id j) v (body_snippet j) (html_content j) (is_private j)
   (image_url j) (is_deleted j) (deleted_at j) (created_at j) (updated_at j) (tags j).
Definition set_body_snippet (j : t) (v : option string) : t :=
  mk (id j) (user_id j) (title j) v (html_content j) (is_private j)
   (image_url j) (is_deleted j) (deleted_at j) (created_at j) (updated_at j) (tags j).
Definition set_html_content (j : t) (v : option string) : t :=
  mk (id j) (user_id j) (title j) (body_snippet j) v (is_private j)
   (image_url j) (is_deleted j) (deleted_at j) (created_at j) (updated_at j) (tags j).
Definition set_is_private (j : t) (v : option bool) : t :=
  mk (id j) (user_id j) (title j) (body_snippet j) (html_content j) v
   (image_url j) (is_deleted j) (deleted_at j) (created_at j) (updated_at j) (tags j).
Definition set_image_url (j : t) (v : option string) : t :=
  mk (id j) (user_id j) (title j) (body_snippet j) (html_content j) (is_private j)
   v (is_deleted j) (deleted_at j) (created_at j) (updated_at j) (tags j).
Definition set_is_deleted (j : t) (v : bool) : t :=
  mk (id j) (user_id j) (title j) (body_snippet j) (html_content j) (is_private j)
   (image_url j) v (deleted_at j) (created_at j) (updated_at j) (tags j).
Definition set_deleted_at (j : t) (v : deleted_at_value) : t :=
  mk (id j) (user_id j) (title j) (body_snippet j) (html_content j) (is_private j)
   (image_url j) (is_deleted j) v (created_at j) (updated_at j) (tags j).
End Journal.

#[global] Instance Journal_eq_dec : EqDecision Journal.t.
Proof. solve_decision. Defined.

Module Comment.
(** Modelled from the spec: the Comment model is not among the sources
    (spec section 3: "id, journal_id, user_id, body text"); the
    handlers only count the comments of a journal. *)
Record t := mk {
  id : Z;
  journal_id : Z;
  user_id : Z;
  body : string;
}.
End Comment.

Module JournalReactions.
Record t := mk {
  id : Z;
  journal_id : Z;
  user_id : Z;
  reaction_type : string;
  created_at : datetime;
}.
End JournalReactions.

Module JournalFavorites.
Record t := mk {
  id : Z;
  journal_id : Z;
  user_id : Z;
  created_at : datetime;
}.
End JournalFavorites.

Module JournalShares.
Record t := mk {
  id : Z;
  journal_id : Z;
  user_id : Z;
  share_type : string;
  shared_at : datetime;
}.
End JournalShares.

Module JournalReports.
Record t := mk {
  id : Z;
  journal_id : Z;
  reporter_id : Z;
  reason : string;
  status : string;
  created_at : datetime;
  resolved_at : option datetime;
}.
End JournalReports.

(** ** The session: the tables the handlers read and write *)

Module Session.
Record t := mk {
  users : list User.t;
  journals : list Journal.t;
  tags : list Tag.t;
  comments : list Comment.t;
  journal_reactions : list JournalReactions.t;
  journal_favorites : list JournalFavorites.t;
  journal_shares : list JournalShares.t;
  journal_reports : list JournalReports.t;
}.

Definition set_journals (s : t) (js : list Journal.t) : t :=
  mk (users s) js (tags s) (comments s) (journal_reactions s)
     (journal_favorites s) (journal_shares s) (journal_reports s).

Definition set_tags (s : t) (ts : list Tag.t) : t :=
  mk (users s) (journals s) ts (comments s) (journal_reactions s)
     (journal_favorites s) (journal_shares s) (journal_reports s).

Definition set_journal_reactions (s : t) (rs : list JournalReactions.t) : t :=
  mk (users s) (journals s) (tags s) (comments s) rs
     (journal_favorites s) (journal_shares s) (journal_reports s).

Definition set_journal_favorites (s : t) (fs : list JournalFavorites.t) : t :=
  mk (users s) (journals s) (tags s) (comments s) (journal_reactions s)
     fs (journal_shares s) (journal_reports s).

Definition set_journal_shares (s : t) (ss : list JournalShares.t) : t :=
  mk (users s) (journals s) (tags s) (comments s) (journal_reactions s)
     (journal_favorites s) ss (journal_reports s).

Definition set_journal_reports (s : t) (rs : list JournalReports.t) : t :=
  mk (users s) (journals s) (tags s) (comments s) (journal_reactions s)
     (journal_favorites s) (journal_shares s) rs.

(** The next value of an auto-incrementing primary key. *)
Definition next_id (ids : list Z) : Z := 1 + foldr Z.max 0 ids.

(** [session.get(Journal, journal_id)]. *)
Definition get_journal (s : t) (journal_id : Z) : option Journal.t :=
  head (filter (λ j, Journal.id j = journal_id) (journals s)).

(** [session.exec(select(Tag).where(Tag.name == tag_name)).first()]. *)
Definition tag_by_name (s : t) (tag_name : string) : option Tag.t :=
  head (filter (λ t, Tag.name t = tag_name) (tags s)).

(** [session.exec(select(User).where(User.id == user_id)).first()]. *)
Definition user_by_id (s : t) (user_id : Z) : option User.t :=
  head (filter (λ u, User.id u = user_id) (users s)).

(** Writing back the object [session.get] returned: the first row with
    its primary key is replaced. *)
Fixpoint store_journal (j' : Journal.t) (js : list Journal.t) : list Journal.t :=
  match js with
  | [] => []
  | j :: js' =>
      if bool_decide (Journal.id j = Journal.id j') then j' :: js'
      else j :: store_journal j' js'
  end.

(** The relationship attributes of a loaded journal. *)
Definition journal_user (s : t) (j : Journal.t) : option User.t :=
  user_by_id s (Journal.user_id j).

Definition journal_comments (s : t) (j : Journal.t) : list Comment.t :=
  filter (λ c, Comment.journal_id c = Journal.id j) (comments s).

(** [tag.journals]: the journals whose [tags] collection holds the tag. *)
Definition tag_journals (s : t) (tag : Tag.t) : list Journal.t :=
  filter (λ j, Tag.id tag ∈ Tag.id <$> Journal.tags j) (journals s).
End Session.


(** ** Request and response schemas ([schemas/journal.py], [schemas/common.py]) *)

(** A field of a request body that the client may leave out: pydantic
    records which fields were set, and [model_dump(exclude_unset=True)]
    keeps those. *)
Inductive field (A : Type) :=
  | Unset
  | Set_ (v : A).
Arguments Unset {A}.
Arguments Set_ {A} v.

Module JournalCreate.
Record t := mk {
  title : string;
  body_snippet : option string;
  html_content : option string;
  is_private : bool;
  image_url : option string;
  tags : list string;
}.
End JournalCreate.

Module JournalUpdate.
(** Every field is [Optional[...] = None]: a field that is set carries a
    value or an explicit null. *)
Record t := mk {
  title : field (option string);
  body_snippet : field (option string);
  html_content : field (option string);
  is_private : field (option bool);
  image_url : field (option string);
}.
End JournalUpdate.

(** Keyword arguments: the handlers build a table row from the dumped
    request body, unpacked, and one more keyword for the actor. *)
Inductive pyvalue :=
  | PyInt (z : Z)
  | PyStr (s : string).

Definition kwargs := list (string * pyvalue).

Definition kw_int (kw : kwargs) (k : string) : option Z :=
  match head (filter (λ p, p.1 = k) kw) with
  | Some (_, PyInt z) => Some z
  | _ => None
  end.

Definition kw_str (kw : kwargs) (k : string) : option string :=
  match head (filter (λ p, p.1 = k) kw) with
  | Some (_, PyStr s) => Some s
  | _ => None
  end.

Module JournalReactionCreate.
Record t := mk {
  journal_id : Z;
  reaction_type : string;
}.
Definition model_dump (d : t) : kwargs :=
  [("journal_id", PyInt (journal_id d)); ("reaction_type", PyStr (reaction_type d))].
End JournalReactionCreate.

Module JournalFavoriteCreate.
Record t := mk {
  journal_id : Z;
}.
Definition model_dump (d : t) : kwargs :=
  [("journal_id", PyInt (journal_id d))].
End JournalFavoriteCreate.

Module JournalShareCreate.
(** [share_type] defaults to ["internal"] when the body leaves it out. *)
Record t := mk {
  journal_id : Z;
  share_type : string;
}.
Definition model_dump (d : t) : kwargs :=
  [("journal_id", PyInt (journal_id d)); ("share_type", PyStr (share_type d))].
End JournalShareCreate.

Module JournalReportCreate.
Record t := mk {
  journal_id : Z;
  reason : string;
}.
Definition model_dump (d : t) : kwargs :=
  [("journal_id", PyInt (journal_id d)); ("reason", PyStr (reason d))].
End JournalReportCreate.

Module TagResponse.
Record t := mk {
  id : Z;
  name : string;
}.
End TagResponse.

Module JournalFeedUserResponse.
Record t := mk {
  id : Z;
  name : string;
  profile_image_url : option string;
}.
End JournalFeedUserResponse.

Module JournalFeedResponse.
Record t := mk {
  id : Z;
  user : JournalFeedUserResponse.t;
  image_url : option string;
  title : option string;
  body_snippet : option string;
  html_content : option string;
  created_at : datetime;
  comment_count : nat;
  share_count : nat;
  is_favorite : bool;
  tags : list TagResponse.t;
  is_private : option bool;
}.
End JournalFeedResponse.

(** The envelope, with the message and the data the handler passes.  Some
    handlers pass further keywords ([success], [status], [code]); what the
    envelope class makes of them is pydantic's and is left out. *)
Module APIResponse.
Record t (T : Type) := mk {
  message : string;
  data : T;
}.
Arguments mk {T} message data.
Arguments message {T} _.
Arguments data {T} _.
End APIResponse.

(** ** The authentication dependency ([security/dependencies.py]) *)

Record HTTPAuthorizationCredentials := {
  scheme : string;
  credentials : string;
}.

(** The decoded claim set.  Spec section 6: the [sub] claim holds the
    user's integer id as a string. *)
Abbreviation Claims := (gmap string string).

Section Handlers.

(** Modelled from the spec: [security/jwt.py] is not among the sources.
    Spec section 4.2: given a token string, return the decoded claim set
    or fail. *)
Variable decode_access_token : string → result Claims.

(** The dependency starts from the credentials [HTTPBearer] has parsed;
    the diagnostic print of the claims is left out. *)
Definition get_current_user (auth_credentials : HTTPAuthorizationCredentials)
    (session : Session.t) : result User.t :=
  if bool_decide (Py.lower (scheme auth_credentials) ≠ "bearer")
  then Raise (HTTPException HTTP_401_UNAUTHORIZED "Invalid authentication scheme")
  else
    let token := credentials auth_credentials in
    claims ← decode_access_token token;
    match claims !! "sub" with
    | None => Raise (HTTPException HTTP_401_UNAUTHORIZED "Invalid token subject")
    | Some subject =>
        if bool_decide (subject = "")
        then Raise (HTTPException HTTP_401_UNAUTHORIZED "Invalid token subject")
        else
          match Py.int subject with
          | None => Raise (HTTPException HTTP_401_UNAUTHORIZED "Invalid token subject")
          | Some user_id =>
              match Session.user_by_id session user_id with
              | None => Raise (HTTPException HTTP_401_UNAUTHORIZED "User not found")
              | Some user => Ok user
              end
          end
    end.

(** ** Feed assembly *)

(** Stable sort, newest first: [list.sort(key=..., reverse=True)], and
    [ORDER BY created_at DESC] over rows in storage order. *)
Fixpoint insert_desc {A} (key : A → Z) (x : A) (l : list A) : list A :=
  match l with
  | [] => [x]
  | y :: l' =>
      if bool_decide (key y < key x) then x :: y :: l'
      else y :: insert_desc key x l'
  end.

Definition sort_desc {A} (key : A → Z) (l : list A) : list A :=
  foldl (λ acc x, insert_desc key x acc) [] l.

(** [GROUP BY key] with [count]: one row per key that occurs. *)
Definition group_count (keys : list Z) : list (Z * nat) :=
  (λ k, (k, length (filter (λ k', k' = k) keys))) <$> remove_dups keys.

(** [dict(pairs)]: a later pair overrides an earlier one. *)
Definition dict {V} (pairs : list (Z * V)) : gmap Z V :=
  foldl (λ m kv, <[kv.1 := kv.2]> m) ∅ pairs.

(** One feed entry, given the two aggregates.  [journal.user] is [None]
    when no user row has the journal's [user_id]. *)
Definition feed_item (session : Session.t) (journal : Journal.t)
    (share_count : nat) (is_favorite : bool) : result JournalFeedResponse.t :=
  match Session.journal_user session journal with
  | None => Raise (AttributeError "'NoneType' object has no attribute 'id'")
  | Some user =>
      let user_data :=
        JournalFeedUserResponse.mk (User.id user) (User.name user)
          (User.profile_image_url user) in
      let tags :=
        (λ tag, TagResponse.mk (Tag.id tag) (Tag.name tag)) <$> Journal.tags journal in
      Ok (JournalFeedResponse.mk (Journal.id journal) user_data
            (Journal.image_url journal) (Journal.title journal)
            (Journal.body_snippet journal) (Journal.html_content journal)
            (Journal.created_at journal)
            (length (Session.journal_comments session journal))
            share_count is_favorite tags (Journal.is_private journal))
  end.

(** The batched strategy: two grouped queries over the ids of the page. *)
Definition shares_counts_result (session : Session.t) (journal_ids : list Z)
    : list (Z * nat) :=
  group_count
    (JournalShares.journal_id <$>
       filter (λ sh, JournalShares.journal_id sh ∈ journal_ids)
         (Session.journal_shares session)).

Definition user_favorites_result (session : Session.t) (journal_ids : list Z)
    (current_user : User.t) : list Z :=
  JournalFavorites.journal_id <$>
    filter (λ fv, JournalFavorites.journal_id fv ∈ journal_ids
                  ∧ JournalFavorites.user_id fv = User.id current_user)
      (Session.journal_favorites session).

Definition batched_share_count (session : Session.t) (journals : list Journal.t)
    (journal : Journal.t) : nat :=
  let journal_ids := Journal.id <$> journals in
  let shares_map := dict (shares_counts_result session journal_ids) in
  default 0%nat (shares_map !! Journal.id journal).

Definition batched_is_favorite (session : Session.t) (current_user : User.t)
    (journals : list Journal.t) (journal : Journal.t) : bool :=
  let journal_ids := Journal.id <$> journals in
  let favorite_journal_ids : gset Z :=
    list_to_set (user_favorites_result session journal_ids current_user) in
  bool_decide (Journal.id journal ∈ favorite_journal_ids).

(** The direct strategy: one query per journal and aggregate. *)
Definition direct_share_count (session : Session.t) (journal : Journal.t) : nat :=
  length (filter (λ sh, JournalShares.journal_id sh = Journal.id journal)
            (Session.journal_shares session)).

Definition direct_is_favorite (session : Session.t) (current_user : User.t)
    (journal : Journal.t) : bool :=
  match head (filter (λ fv, JournalFavorites.journal_id fv = Journal.id journal
                            ∧ JournalFavorites.user_id fv = User.id current_user)
                (Session.journal_favorites session)) with
  | Some _ => true
  | None => false
  end.

(** The loop [for journal in journals: feed.append(...)]; [after_append]
    is what the loop body does to [feed] after the append. *)
Fixpoint feed_loop (item : Journal.t → result JournalFeedResponse.t)
    (after_append : list JournalFeedResponse.t → list JournalFeedResponse.t)
    (journals : list Journal.t) (feed : list JournalFeedResponse.t)
    : result (list JournalFeedResponse.t) :=
  match journals with
  | [] => Ok feed
  | journal :: rest =>
      entry ← item journal;
      feed_loop item after_append rest (after_append (feed ++ [entry]))
  end.

Definition batched_item (session : Session.t) (current_user : User.t)
    (journals : list Journal.t) (journal : Journal.t) : result JournalFeedResponse.t :=
  feed_item session journal
    (batched_share_count session journals journal)
    (batched_is_favorite session current_user journals journal).

Definition direct_item (session : Session.t) (current_user : User.t)
    (journal : Journal.t) : result JournalFeedResponse.t :=
  feed_item session journal
    (direct_share_count session journal)
    (direct_is_favorite session current_user journal).

(** The part the four paged feeds share, from [if not journals] on. *)
Definition batched_feed (session : Session.t) (current_user : User.t)
    (after_append : list JournalFeedResponse.t → list JournalFeedResponse.t)
    (journals : list Journal.t)
    : result (APIResponse.t (list JournalFeedResponse.t)) :=
  match journals with
  | [] => Ok (APIResponse.mk "Journals retrieved successfully" [])
  | _ =>
      feed ← feed_loop (batched_item session current_user journals)
                after_append journals [];
      Ok (APIResponse.mk "Journals retrieved successfully" feed)
  end.

(** ** The handlers ([routers/journal_routes.py]) *)

(** [skip] and [limit] are taken as naturals: what a negative [OFFSET]
    or [LIMIT] does is the database engine's. *)
Definition get_all_journals (session : Session.t) (current_user : User.t)
    (skip limit : nat) : result (APIResponse.t (list JournalFeedResponse.t)) :=
  let journals :=
    take limit (drop skip
      (filter (λ j, Journal.is_deleted j = false) (Session.journals session))) in
  batched_feed session current_user
    (sort_desc JournalFeedResponse.created_at) journals.

Definition get_journals_by_tag (tag_name : string) (session : Session.t)
    (current_user : User.t) : result (APIResponse.t (list JournalFeedResponse.t)) :=
  match Session.tag_by_name session tag_name with
  | None => Raise (HTTPException HTTP_404_NOT_FOUND "Tag not found")
  | Some tag =>
      let journals := Session.tag_journals session tag in
      feed ← feed_loop (direct_item session current_user) id journals [];
      Ok (APIResponse.mk
            ("Journals with tag '" +:+ tag_name +:+ "' retrieved successfully") feed)
  end.

Definition get_user_journals (session : Session.t) (current_user : User.t)
    (skip limit : nat) : result (APIResponse.t (list JournalFeedResponse.t)) :=
  let journals :=
    take limit (drop skip
      (sort_desc Journal.created_at
        (filter (λ j, Journal.is_deleted j = false
                      ∧ Journal.user_id j = User.id current_user)
           (Session.journals session)))) in
  batched_feed session current_user id journals.

Definition get_journal_by_id (journal_id : Z) (session : Session.t)
    : result (APIResponse.t Journal.t) :=
  match Session.get_journal session journal_id with
  | None => Raise (HTTPException HTTP_404_NOT_FOUND "Journal not found")
  | Some journal =>
      if Journal.is_deleted journal
      then Raise (HTTPException HTTP_404_NOT_FOUND "Journal not found")
      else Ok (APIResponse.mk "Journal retrieved successfully" journal)
  end.

Definition get_journals_by_user (user_id : Z) (session : Session.t)
    (current_user : User.t) (skip limit : nat)
    : result (APIResponse.t (list JournalFeedResponse.t)) :=
  let journals :=
    take limit (drop skip
      (sort_desc Journal.created_at
        (filter (λ j, Journal.is_deleted j = false ∧ Journal.user_id j = user_id)
           (Session.journals session)))) in
  batched_feed session current_user id journals.

Definition get_my_journals (session : Session.t) (current_user : User.t)
    (skip limit : nat) : result (APIResponse.t (list JournalFeedResponse.t)) :=
  let journals :=
    take limit (drop skip
      (sort_desc Journal.created_at
        (filter (λ j, Journal.is_deleted j = false
                      ∧ Journal.user_id j = User.id current_user)
           (Session.journals session)))) in
  batched_feed session current_user id journals.

(** *** Creating a journal *)

(** The loop over [journal_data.tags].  A query flushes the session
    first, so the lookup sees the tags added by earlier iterations; a new
    tag takes the next primary key when it is flushed. *)
Fixpoint attach_tags (names : list string) (session : Session.t)
    (journal_tags : list Tag.t) : Session.t * list Tag.t :=
  match names with
  | [] => (session, journal_tags)
  | tag_name :: rest =>
      match Session.tag_by_name session tag_name with
      | Some tag => attach_tags rest session (journal_tags ++ [tag])
      | None =>
          let tag :=
            Tag.mk (Session.next_id (Tag.id <$> Session.tags session)) tag_name in
          attach_tags rest
            (Session.set_tags session (Session.tags session ++ [tag]))
            (journal_tags ++ [tag])
      end
  end.

Definition create_journal (now : datetime) (journal_data : JournalCreate.t)
    (session : Session.t) (current_user : User.t)
    : result (APIResponse.t Journal.t * Session.t) :=
  let '(session1, journal_tags) :=
    if bool_decide (JournalCreate.tags journal_data = [])
    then (session, [])
    else attach_tags (JournalCreate.tags journal_data) session [] in
  let journal :=
    Journal.mk (Session.next_id (Journal.id <$> Session.journals session1))
      (User.id current_user)
      (Some (JournalCreate.title journal_data))
      (JournalCreate.body_snippet journal_data)
      (JournalCreate.html_content journal_data)
      (Some (JournalCreate.is_private journal_data))
      (JournalCreate.image_url journal_data)
      false DeletedAtNone now now journal_tags in
  Ok (APIResponse.mk "Journal created successfully" journal,
      Session.set_journals session1 (Session.journals session1 ++ [journal])).

(** *** Updating and deleting a journal *)

(** An item of [journal_data.model_dump(exclude_unset=True)]: the
    attribute name with a value of that attribute's type. *)
Inductive update_item :=
  | item_title (value : option string)
  | item_body_snippet (value : option string)
  | item_html_content (value : option string)
  | item_is_private (value : option bool)
  | item_image_url (value : option string).

Definition dump_field {A} (key : A → update_item) (f : field A) : list update_item :=
  match f with
  | Unset => []
  | Set_ v => [key v]
  end.

Definition model_dump_exclude_unset (d : JournalUpdate.t) : list update_item :=
  dump_field item_title (JournalUpdate.title d)
  ++ dump_field item_body_snippet (JournalUpdate.body_snippet d)
  ++ dump_field item_html_content (JournalUpdate.html_content d)
  ++ dump_field item_is_private (JournalUpdate.is_private d)
  ++ dump_field item_image_url (JournalUpdate.image_url d).

Definition setattr (journal : Journal.t) (item : update_item) : Journal.t :=
  match item with
  | item_title v => Journal.set_title journal v
  | item_body_snippet v => Journal.set_body_snippet journal v
  | item_html_content v => Journal.set_html_content journal v
  | item_is_private v => Journal.set_is_private journal v
  | item_image_url v => Journal.set_image_url journal v
  end.

Definition update_journal (journal_id : Z) (journal_data : JournalUpdate.t)
    (session : Session.t) (current_user : User.t)
    : result (APIResponse.t Journal.t * Session.t) :=
  match Session.get_journal session journal_id with
  | None => Raise (HTTPException HTTP_404_NOT_FOUND "Journal not found")
  | Some journal =>
      if bool_decide (Journal.user_id journal ≠ User.id current_user)
      then Raise (HTTPException HTTP_404_NOT_FOUND "Journal not found")
      else
        let journal' :=
          foldl setattr journal (model_dump_exclude_unset journal_data) in
        Ok (APIResponse.mk "Journal updated successfully" journal',
            Session.set_journals session
              (Session.store_journal journal' (Session.journals session)))
  end.

Definition delete_journal (journal_id : Z) (session : Session.t)
    (current_user : User.t) : result (APIResponse.t unit * Session.t) :=
  match Session.get_journal session journal_id with
  | None => Raise (HTTPException HTTP_404_NOT_FOUND "Journal not found")
  | Some journal =>
      if bool_decide (Journal.user_id journal ≠ User.id current_user)
      then Raise (HTTPException HTTP_404_NOT_FOUND "Journal not found")
      else
        let journal1 := Journal.set_is_deleted journal true in
        let journal2 :=
          Journal.set_deleted_at journal1 (DeletedAtStr "CURRENT_TIMESTAMP") in
        Ok (APIResponse.mk "Journal deleted successfully" (),
            Session.set_journals session
              (Session.store_journal journal2 (Session.journals session)))
  end.

(** *** Reactions, favorites, shares and reports *)

(** A call with an unpacked dict and one more keyword: Python rejects a
    keyword given twice. *)
Definition with_keyword (kw : kwargs) (key : string) (value : pyvalue)
    : result kwargs :=
  if bool_decide (key ∈ kw.*1)
  then Raise (TypeError "got multiple values for keyword argument")
  else Ok (kw ++ [(key, value)]).

(** The table rows built from keywords; a row needs each of its columns
    without a default.  [id] and the time default are filled in here. *)
Definition new_JournalReactions (id : Z) (now : datetime) (kw : kwargs)
    : result JournalReactions.t :=
  match kw_int kw "journal_id", kw_int kw "user_id", kw_str kw "reaction_type" with
  | Some journal_id, Some user_id, Some reaction_type =>
      Ok (JournalReactions.mk id journal_id user_id reaction_type now)
  | _, _, _ => Raise (TypeError "missing column value")
  end.

Definition new_JournalFavorites (id : Z) (now : datetime) (kw : kwargs)
    : result JournalFavorites.t :=
  match kw_int kw "journal_id", kw_int kw "user_id" with
  | Some journal_id, Some user_id =>
      Ok (JournalFavorites.mk id journal_id user_id now)
  | _, _ => Raise (TypeError "missing column value")
  end.

Definition new_JournalShares (id : Z) (now : datetime) (kw : kwargs)
    : result JournalShares.t :=
  match kw_int kw "journal_id", kw_int kw "user_id" with
  | Some journal_id, Some user_id =>
      Ok (JournalShares.mk id journal_id user_id
            (default "internal" (kw_str kw "share_type")) now)
  | _, _ => Raise (TypeError "missing column value")
  end.

Definition new_JournalReports (id : Z) (now : datetime) (kw : kwargs)
    : result JournalReports.t :=
  match kw_int kw "journal_id", kw_int kw "reporter_id", kw_str kw "reason" with
  | Some journal_id, Some reporter_id, Some reason =>
      Ok (JournalReports.mk id journal_id reporter_id reason
            (default "pending" (kw_str kw "status")) now None)
  | _, _, _ => Raise (TypeError "missing column value")
  end.

Definition create_journal_reaction (now : datetime)
    (journal_reaction_data : JournalReactionCreate.t)
    (session : Session.t) (current_user : User.t)
    : result (APIResponse.t JournalReactions.t * Session.t) :=
  kw ← with_keyword (JournalReactionCreate.model_dump journal_reaction_data)
         "user_id" (PyInt (User.id current_user));
  journal_reaction ←
    new_JournalReactions
      (Session.next_id (JournalReactions.id <$> Session.journal_reactions session))
      now kw;
  Ok (APIResponse.mk "Journal reaction created successfully" journal_reaction,
      Session.set_journal_reactions session
        (Session.journal_reactions session ++ [journal_reaction])).

Definition get_journal_reactions (journal_id : Z) (session : Session.t)
    : result (APIResponse.t (list JournalReactions.t)) :=
  let journal_reactions :=
    filter (λ r, JournalReactions.journal_id r = journal_id)
      (Session.journal_reactions session) in
  Ok (APIResponse.mk "Journal reactions retrieved successfully" journal_reactions).

Definition create_journal_favorite (now : datetime)
    (journal_favorite_data : JournalFavoriteCreate.t)
    (session : Session.t) (current_user : User.t)
    : result (APIResponse.t JournalFavorites.t * Session.t) :=
  kw ← with_keyword (JournalFavoriteCreate.model_dump journal_favorite_data)
         "user_id" (PyInt (User.id current_user));
  journal_favorite ←
    new_JournalFavorites
      (Session.next_id (JournalFavorites.id <$> Session.journal_favorites session))
      now kw;
  Ok (APIResponse.mk "Journal favorite created successfully" journal_favorite,
      Session.set_journal_favorites session
        (Session.journal_favorites session ++ [journal_favorite])).

Definition get_journal_favorites (session : Session.t) (current_user : User.t)
    : result (APIResponse.t (list JournalFavorites.t)) :=
  let journal_favorites :=
    filter (λ f, JournalFavorites.user_id f = User.id current_user)
      (Session.journal_favorites session) in
  Ok (APIResponse.mk "Journal favorites retrieved successfully" journal_favorites).

Definition create_journal_share (now : datetime)
    (journal_share_data : JournalShareCreate.t)
    (session : Session.t) (current_user : User.t)
    : result (APIResponse.t JournalShares.t * Session.t) :=
  kw ← with_keyword (JournalShareCreate.model_dump journal_share_data)
         "user_id" (PyInt (User.id current_user));
  journal_share ←
    new_JournalShares
      (Session.next_id (JournalShares.id <$> Session.journal_shares session))
      now kw;
  Ok (APIResponse.mk "Journal share created successfully" journal_share,
      Session.set_journal_shares session
        (Session.journal_shares session ++ [journal_share])).

Definition create_journal_report (now : datetime)
    (journal_report_data : JournalReportCreate.t)
    (session : Session.t) (current_user : User.t)
    : result (APIResponse.t JournalReports.t * Session.t) :=
  kw ← with_keyword (JournalReportCreate.model_dump journal_report_data)
         "reporter_id" (PyInt (User.id current_user));
  journal_report ←
    new_JournalReports
      (Session.next_id (JournalReports.id <$> Session.journal_reports session))
      now kw;
  Ok (APIResponse.mk "Journal report created successfully" journal_report,
      Session.set_journal_reports session
        (Session.journal_reports session ++ [journal_report])).

(** ** The router: each operation with the dependencies its handler declares *)

Inductive operation :=
  | op_create_journal (journal_data : JournalCreate.t)
  | op_get_all_journals (skip limit : nat)
  | op_get_journals_by_tag (tag_name : string)
  | op_get_user_journals (skip limit : nat)
  | op_get_journal_by_id (journal_id : Z)
  | op_get_journals_by_user (user_id : Z) (skip limit : nat)
  | op_get_my_journals (skip limit : nat)
  | op_update_journal (journal_id : Z) (journal_data : JournalUpdate.t)
  | op_delete_journal (journal_id : Z)
  | op_create_journal_reaction (journal_reaction_data : JournalReactionCreate.t)
  | op_get_journal_reactions (journal_id : Z)
  | op_create_journal_favorite (journal_favorite_data : JournalFavoriteCreate.t)
  | op_get_journal_favorites
  | op_create_journal_share (journal_share_data : JournalShareCreate.t)
  | op_create_journal_report (journal_report_data : JournalReportCreate.t).

Inductive payload :=
  | data_journal (j : Journal.t)
  | data_feed (feed : list JournalFeedResponse.t)
  | data_empty
  | data_reaction (r : JournalReactions.t)
  | data_reactions (rs : list JournalReactions.t)
  | data_favorite (f : JournalFavorites.t)
  | data_favorites (fs : list JournalFavorites.t)
  | data_share (sh : JournalShares.t)
  | data_report (rp : JournalReports.t).

Definition reads {T} (wrap : T → payload) (session : Session.t)
    (r : result (APIResponse.t T)) : result (APIResponse.t payload * Session.t) :=
  a ← r;
  Ok (APIResponse.mk (APIResponse.message a) (wrap (APIResponse.data a)), session).

Definition writes {T} (wrap : T → payload)
    (r : result (APIResponse.t T * Session.t))
    : result (APIResponse.t payload * Session.t) :=
  '(a, session') ← r;
  Ok (APIResponse.mk (APIResponse.message a) (wrap (APIResponse.data a)), session').

(** A handler that declares [current_user: Depends(get_current_user)]
    runs after the dependency; [get_journal_by_id] and
    [get_journal_reactions] declare the session only. *)
Definition serve (now : datetime) (auth_credentials : HTTPAuthorizationCredentials)
    (op : operation) (session : Session.t)
    : result (APIResponse.t payload * Session.t) :=
  match op with
  | op_create_journal journal_data =>
      current_user ← get_current_user auth_credentials session;
      writes data_journal (create_journal now journal_data session current_user)
  | op_get_all_journals skip limit =>
      current_user ← get_current_user auth_credentials session;
      reads data_feed session (get_all_journals session current_user skip limit)
  | op_get_journals_by_tag tag_name =>
      current_user ← get_current_user auth_credentials session;
      reads data_feed session (get_journals_by_tag tag_name session current_user)
  | op_get_user_journals skip limit =>
      current_user ← get_current_user auth_credentials session;
      reads data_feed session (get_user_journals session current_user skip limit)
  | op_get_journal_by_id journal_id =>
      reads data_journal session (get_journal_by_id journal_id session)
  | op_get_journals_by_user user_id skip limit =>
      current_user ← get_current_user auth_credentials session;
      reads data_feed session
        (get_journals_by_user user_id session current_user skip limit)
  | op_get_my_journals skip limit =>
      current_user ← get_current_user auth_credentials session;
      reads data_feed session (get_my_journals session current_user skip limit)
  | op_update_journal journal_id journal_data =>
      current_user ← get_current_user auth_credentials session;
      writes data_journal (update_journal journal_id journal_data session current_user)
  | op_delete_journal journal_id =>
      current_user ← get_current_user auth_credentials session;
      writes (λ _, data_empty) (delete_journal journal_id session current_user)
  | op_create_journal_reaction journal_reaction_data =>
      current_user ← get_current_user auth_credentials session;
      writes data_reaction
        (create_journal_reaction now journal_reaction_data session current_user)
  | op_get_journal_reactions journal_id =>
      reads data_reactions session (get_journal_reactions journal_id session)
  | op_create_journal_favorite journal_favorite_data =>
      current_user ← get_current_user auth_credentials session;
      writes data_favorite
        (create_journal_favorite now journal_favorite_data session current_user)
  | op_get_journal_favorites =>
      current_user ← get_current_user auth_credentials session;
      reads data_favorites session (get_journal_favorites session current_user)
  | op_create_journal_share journal_share_data =>
      current_user ← get_current_user auth_credentials session;
      writes data_share
        (create_journal_share now journal_share_data session current_user)
  | op_create_journal_report journal_report_data =>
      current_user ← get_current_user auth_credentials session;
      writes data_report
        (create_journal_report now journal_report_data session current_user)
  end.

End Handlers.

(** The session a handler leaves behind: the one it returns, or the one
    it was given when it raises before the commit. *)
Definition session_after {T} (session : Session.t)
    (r : result (T * Session.t)) : Session.t :=
  match r with
  | Ok (_, session') => session'
  | Raise _ => session
  end.

(** ** Vocabulary of the properties *)

(** What the reflective assignment loop leaves in each attribute. *)
Definition supplied_or {A} (f : field A) (prior : A) : A :=
  match f with
  | Set_ v => v
  | Unset => prior
  end.

(** The condition under which update and delete answer not-found. *)
Definition absent_or_foreign (session : Session.t) (journal_id : Z)
    (current_user : User.t) : Prop :=
  match Session.get_journal session journal_id with
  | None => True
  | Some journal => Journal.user_id journal ≠ User.id current_user
  end.

(** A list in the order of a feed: newest first. *)
Definition newest_first {A} (created_at : A → datetime) (l : list A) : Prop :=
  StronglySorted (λ a b, (created_at b ≤ created_at a)%Z) l.

(** Every journal row has the row of its owner: the foreign key
    [journals.user_id] of the model. *)
Definition owners_exist (session : Session.t) : Prop :=
  Forall (λ j, is_Some (Session.journal_user session j)) (Session.journals session).

(** ** Sample data for the examples *)

Module Sample.

(** A decoder for the examples: the token text is the subject; the empty
    token does not decode. *)
Definition decode_access_token (token : string) : result Claims :=
  if bool_decide (token = "")
  then Raise (HTTPException HTTP_401_UNAUTHORIZED "Could not validate credentials")
  else if bool_decide (token = "nosub") then Ok ∅
  else Ok {["sub" := token]}.

Definition alice : User.t := User.mk 1 "alice" None.
Definition bob : User.t := User.mk 2 "bob" (Some "https://img/bob.png").

Definition gratitude : Tag.t := Tag.mk 1 "gratitude".
Definition morning : Tag.t := Tag.mk 2 "morning".

(** Journal 1 is alice's and live; journal 2 is alice's and soft-deleted,
    still tagged; journal 3 is bob's. *)
Definition journal1 : Journal.t :=
  Journal.mk 1 1 (Some "First") (Some "snippet") None (Some false) None
  false DeletedAtNone 100 100 [gratitude; morning].
Definition journal2 : Journal.t :=
  Journal.mk 2 1 (Some "Second") None None (Some true) None
  true (DeletedAtStr "CURRENT_TIMESTAMP") 200 200 [gratitude].
Definition journal3 : Journal.t :=
  Journal.mk 3 2 (Some "Third") None (Some "<p>hi</p>") (Some false) None
  false DeletedAtNone 300 300 [].

Definition session : Session.t :=
  Session.mk [alice; bob] [journal1; journal2; journal3] [gratitude; morning]
  [Comment.mk 1 1 2 "nice"]
  [JournalReactions.mk 1 1 2 "heart" 150]
  [JournalFavorites.mk 1 1 2 160; JournalFavorites.mk 2 3 1 310]
  [JournalShares.mk 1 1 2 "internal" 170; JournalShares.mk 2 1 1 "internal" 180;
   JournalShares.mk 3 3 1 "external" 320]
  [].

Definition bearer (token : string) : HTTPAuthorizationCredentials :=
  {| scheme := "Bearer"; credentials := token |}.

End Sample.

(** * Properties *)

(** ** Generic facts *)

(** Closes a closed goal by evaluation. *)
Ltac evaluate := vm_compute; first [reflexivity | done].

Lemma bind_Ok {A B} (f : A → result B) (a : A) : (Ok a ≫= f) = f a.
Proof. reflexivity. Qed.

Lemma bind_Raise {A B} (f : A → result B) (e : exn) : (Raise e ≫= f) = Raise e.
Proof. reflexivity. Qed.

Lemma raised_status_intro {A} (c : Z) (detail : string) :
  raised_status (A:=A) (Raise (HTTPException c detail)) c.
Proof. by exists detail. Qed.

#[local] Hint Resolve raised_status_intro : core.

Lemma Py_int_nonempty (s : string) (z : Z) : Py.int s = Some z → s ≠ "".
Proof. by intros H ->. Qed.

(** ** The authentication dependency *)

Section Authentication.

Variable decode_access_token : string → result Claims.

(** Modelled from the spec: sections 4.2, 4.3 and 7 have a token that
    does not decode surface as unauthorized (401). *)
Hypothesis decode_failure_unauthorized :
  ∀ token e, decode_access_token token = Raise e →
    ∃ detail, e = HTTPException HTTP_401_UNAUTHORIZED detail.

Lemma get_current_user_raises_401 auth session e :
  get_current_user decode_access_token auth session = Raise e →
  ∃ detail, e = HTTPException HTTP_401_UNAUTHORIZED detail.
Proof.
  unfold get_current_user.
  case_bool_decide; [intros [= <-]; eauto|].
  destruct (decode_access_token _) as [claims|e'] eqn:Hd; simpl.
  - destruct (claims !! "sub") as [subject|]; [|intros [= <-]; eauto].
    case_bool_decide; [intros [= <-]; eauto|].
    destruct (Py.int subject); [|intros [= <-]; eauto].
    destruct (Session.user_by_id _ _); [done|intros [= <-]; eauto].
  - intros [= <-]. eauto using decode_failure_unauthorized.
Qed.


End Authentication.

(** ** Actor fields of reactions, favorites, shares and reports *)

Lemma with_keyword_fresh (kw : kwargs) key value :
  key ∉ kw.*1 → with_keyword kw key value = Ok (kw ++ [(key, value)]).
Proof. intros H. unfold with_keyword. by rewrite bool_decide_eq_false_2. Qed.


(** ** The router and the authenticated caller *)

Section Router.

Variable decode_access_token : string → result Claims.

Hypothesis decode_failure_unauthorized :
  ∀ token e, decode_access_token token = Raise e →
    ∃ detail, e = HTTPException HTTP_401_UNAUTHORIZED detail.


End Router.

(** ** Updating and deleting a journal *)

Lemma get_journal_Some session journal_id journal :
  Session.get_journal session journal_id = Some journal →
  journal ∈ Session.journals session ∧ Journal.id journal = journal_id.
Proof.
  intros H%head_Some_elem_of. by apply list_elem_of_filter in H as [? ?].
Qed.

Lemma head_filter_store_journal (j j' : Journal.t) (js : list Journal.t) :
  Journal.id j' = Journal.id j →
  head (filter (λ x, Journal.id x = Journal.id j) js) = Some j →
  head (filter (λ x, Journal.id x = Journal.id j) (Session.store_journal j' js))
  = Some j'.
Proof.
  intros Hid. induction js as [|x js IH]; [done|]; simpl.
  rewrite filter_cons. case_decide as Hx.
  - intros [= ->]. rewrite bool_decide_eq_true_2 by done.
    by rewrite filter_cons_True.
  - intros Hh. rewrite bool_decide_eq_false_2 by congruence.
    rewrite filter_cons_False by done. by apply IH.
Qed.

Lemma head_filter_store_journal_ne (i : Z) (j' : Journal.t) (js : list Journal.t) :
  i ≠ Journal.id j' →
  head (filter (λ x, Journal.id x = i) (Session.store_journal j' js))
  = head (filter (λ x, Journal.id x = i) js).
Proof.
  intros Hi. induction js as [|x js IH]; [done|]; simpl.
  case_bool_decide as Hx.
  - rewrite !filter_cons_False by congruence. done.
  - rewrite !filter_cons. case_decide; [done|]. apply IH.
Qed.

Lemma setattr_loop_fields (data : JournalUpdate.t) (journal : Journal.t) :
  foldl setattr journal (model_dump_exclude_unset data)
  = Journal.mk (Journal.id journal) (Journal.user_id journal)
      (supplied_or (JournalUpdate.title data) (Journal.title journal))
      (supplied_or (JournalUpdate.body_snippet data) (Journal.body_snippet journal))
      (supplied_or (JournalUpdate.html_content data) (Journal.html_content journal))
      (supplied_or (JournalUpdate.is_private data) (Journal.is_private journal))
      (supplied_or (JournalUpdate.image_url data) (Journal.image_url journal))
      (Journal.is_deleted journal) (Journal.deleted_at journal)
      (Journal.created_at journal) (Journal.updated_at journal)
      (Journal.tags journal).
Proof.
  destruct data as [[|?] [|?] [|?] [|?] [|?]], journal; reflexivity.
Qed.

Lemma update_journal_owned journal_id data session current_user journal :
  Session.get_journal session journal_id = Some journal →
  Journal.user_id journal = User.id current_user →
  update_journal journal_id data session current_user
  = Ok (APIResponse.mk "Journal updated successfully"
          (foldl setattr journal (model_dump_exclude_unset data)),
        Session.set_journals session
          (Session.store_journal
             (foldl setattr journal (model_dump_exclude_unset data))
             (Session.journals session))).
Proof.
  intros Hget Hown. unfold update_journal. rewrite Hget.
  by rewrite bool_decide_eq_false_2 by naive_solver.
Qed.

Lemma delete_journal_owned journal_id session current_user journal :
  Session.get_journal session journal_id = Some journal →
  Journal.user_id journal = User.id current_user →
  delete_journal journal_id session current_user
  = Ok (APIResponse.mk "Journal deleted successfully" (),
        Session.set_journals session
          (Session.store_journal
             (Journal.set_deleted_at (Journal.set_is_deleted journal true)
                (DeletedAtStr "CURRENT_TIMESTAMP"))
             (Session.journals session))).
Proof.
  intros Hget Hown. unfold delete_journal. rewrite Hget.
  by rewrite bool_decide_eq_false_2 by naive_solver.
Qed.

Lemma get_journal_after_store session journal_id journal journal' :
  Session.get_journal session journal_id = Some journal →
  Journal.id journal' = Journal.id journal →
  Session.get_journal
    (Session.set_journals session
       (Session.store_journal journal' (Session.journals session))) journal_id
  = Some journal'.
Proof.
  intros Hget Hid. destruct (get_journal_Some _ _ _ Hget) as [_ <-].
  unfold Session.get_journal in *; simpl. by apply head_filter_store_journal.
Qed.

Lemma get_journal_after_store_ne session other journal' :
  other ≠ Journal.id journal' →
  Session.get_journal
    (Session.set_journals session
       (Session.store_journal journal' (Session.journals session))) other
  = Session.get_journal session other.
Proof.
  intros Hne. unfold Session.get_journal; simpl.
  by apply head_filter_store_journal_ne.
Qed.


(** C6.  For a journal whose owner is not the caller, update and delete
    both raise the 404 "Journal not found" they raise for an id with no
    row, and the session, hence the target row and its [is_deleted],
    is left as it was. *)
Theorem foreign_journal_is_not_found
    journal_id data session current_user journal :
  Session.get_journal session journal_id = Some journal →
  Journal.user_id journal ≠ User.id current_user →
  update_journal journal_id data session current_user
    = Raise (HTTPException HTTP_404_NOT_FOUND "Journal not found")
  ∧ delete_journal journal_id session current_user
    = Raise (HTTPException HTTP_404_NOT_FOUND "Journal not found")
  ∧ (∀ missing_id, Session.get_journal session missing_id = None →
       update_journal missing_id data session current_user
       = update_journal journal_id data session current_user
       ∧ delete_journal missing_id session current_user
         = delete_journal journal_id session current_user)
  ∧ session_after session (update_journal journal_id data session current_user)
    = session
  ∧ session_after session (delete_journal journal_id session current_user)
    = session
  ∧ Session.get_journal
      (session_after session (delete_journal journal_id session current_user))
      journal_id = Some journal.
Proof.
  intros Hget Hown.
  assert (Hu : update_journal journal_id data session current_user
               = Raise (HTTPException HTTP_404_NOT_FOUND "Journal not found")).
  { unfold update_journal. rewrite Hget. by rewrite bool_decide_eq_true_2. }
  assert (Hd : delete_journal journal_id session current_user
               = Raise (HTTPException HTTP_404_NOT_FOUND "Journal not found")).
  { unfold delete_journal. rewrite Hget. by rewrite bool_decide_eq_true_2. }
  rewrite Hu, Hd. split; [done|]. split; [done|]. split; [|done].
  intros missing_id Hnone. unfold update_journal, delete_journal.
  by rewrite Hnone.
Qed.

(** The row a successful delete stores: flagged, and stamped with the
    text "CURRENT_TIMESTAMP", which is no timestamp. *)
Lemma delete_journal_stored_row journal_id session current_user journal :
  Session.get_journal session journal_id = Some journal →
  Journal.user_id journal = User.id current_user →
  ∃ journal',
    Session.get_journal
      (session_after session (delete_journal journal_id session current_user))
      journal_id = Some journal'
    ∧ Journal.is_deleted journal' = true
    ∧ Journal.deleted_at journal' = DeletedAtStr "CURRENT_TIMESTAMP"
    ∧ ∀ now : datetime, Journal.deleted_at journal' ≠ DeletedAtTime now.
Proof.
  intros Hget Hown. rewrite (delete_journal_owned _ _ _ _ Hget Hown); simpl.
  eexists. split; [by apply (get_journal_after_store _ _ journal)|].
  by repeat split.
Qed.



(** ** The two aggregation strategies *)

Lemma dict_snoc {V} (pairs : list (Z * V)) (k : Z) (v : V) :
  dict (pairs ++ [(k, v)]) = <[k := v]> (dict pairs).
Proof. unfold dict. by rewrite foldl_snoc. Qed.

Lemma dict_tabulate_lookup {V} (f : Z → V) (ks : list Z) (k : Z) :
  dict ((λ k', (k', f k')) <$> ks) !! k
  = if decide (k ∈ ks) then Some (f k) else None.
Proof.
  induction ks as [|x ks IH] using rev_ind.
  - rewrite decide_False by (intros Hin; by apply elem_of_nil in Hin).
    apply lookup_empty.
  - rewrite fmap_app; simpl. rewrite dict_snoc, lookup_insert.
    simpl. destruct (decide (x = k)) as [->|Hx].
    + rewrite decide_True; [done|].
      apply elem_of_app. right. by apply list_elem_of_singleton.
    + rewrite IH.
      destruct (decide (k ∈ ks)) as [H1|H1];
        destruct (decide (k ∈ ks ++ [x])) as [H2|H2]; try done.
      * destruct H2. apply elem_of_app. by left.
      * apply elem_of_app in H2 as [?|H2]; [done|].
        apply list_elem_of_singleton in H2. congruence.
Qed.

Lemma filter_eq_absent (k : Z) (keys : list Z) :
  k ∉ keys → filter (λ k', k' = k) keys = [].
Proof.
  induction keys as [|x keys IH]; [done|].
  intros [Hne Hnin]%not_elem_of_cons.
  rewrite filter_cons_False by congruence. by apply IH.
Qed.

Lemma group_count_lookup (keys : list Z) (k : Z) :
  default 0%nat (dict (group_count keys) !! k)
  = length (filter (λ k', k' = k) keys).
Proof.
  unfold group_count.
  rewrite (dict_tabulate_lookup (λ k, length (filter (λ k', k' = k) keys))).
  case_decide as Hin; [done|].
  rewrite elem_of_remove_dups in Hin. by rewrite filter_eq_absent.
Qed.

Lemma count_within_page (shares : list JournalShares.t) (ids : list Z) (k : Z) :
  k ∈ ids →
  length (filter (λ k', k' = k)
            (JournalShares.journal_id <$>
               filter (λ sh, JournalShares.journal_id sh ∈ ids) shares))
  = length (filter (λ sh, JournalShares.journal_id sh = k) shares).
Proof.
  intros Hk. induction shares as [|sh shares IH]; [done|].
  rewrite (filter_cons (λ sh, JournalShares.journal_id sh = k)).
  rewrite (filter_cons (λ sh, JournalShares.journal_id sh ∈ ids)).
  destruct (decide (JournalShares.journal_id sh = k)) as [Heq|Hne].
  - rewrite decide_True by (by rewrite Heq).
    rewrite fmap_cons, filter_cons_True by done. simpl. by rewrite IH.
  - case_decide; [|done].
    by rewrite fmap_cons, filter_cons_False.
Qed.

Lemma favorite_within_page (favorites : list JournalFavorites.t)
    (ids : list Z) (uid k : Z) :
  k ∈ ids →
  bool_decide
    (k ∈ (list_to_set
            (JournalFavorites.journal_id <$>
               filter (λ fv, JournalFavorites.journal_id fv ∈ ids
                             ∧ JournalFavorites.user_id fv = uid) favorites)
          : gset Z))
  = match head (filter (λ fv, JournalFavorites.journal_id fv = k
                              ∧ JournalFavorites.user_id fv = uid) favorites) with
    | Some _ => true
    | None => false
    end.
Proof.
  intros Hk.
  destruct (head _) as [fv|] eqn:Hhead.
  - apply head_Some_elem_of, list_elem_of_filter in Hhead as [[Hj Hu] Hin].
    apply bool_decide_eq_true_2, elem_of_list_to_set, list_elem_of_fmap.
    exists fv. split; [done|].
    apply list_elem_of_filter. by rewrite Hj.
  - apply head_None in Hhead.
    apply bool_decide_eq_false_2.
    intros (fv & -> & Hin)%elem_of_list_to_set%list_elem_of_fmap.
    apply list_elem_of_filter in Hin as [[_ Hu] Hin].
    assert (Hfv : fv ∈ filter
              (λ fv', JournalFavorites.journal_id fv' = JournalFavorites.journal_id fv
                      ∧ JournalFavorites.user_id fv' = uid) favorites)
      by (by apply list_elem_of_filter).
    rewrite Hhead in Hfv. by apply elem_of_nil in Hfv.
Qed.

(** C8.  For every session, caller and page, and every journal of the
    page, the share count and the favorite flag of the batched strategy
    (the paged feeds) equal those of the direct strategy (the feed by
    tag), and so do the feed entries built from them. *)
Theorem batched_aggregates_equal_direct (session : Session.t)
    (current_user : User.t) (journals : list Journal.t) (journal : Journal.t) :
  journal ∈ journals →
  batched_share_count session journals journal
    = direct_share_count session journal
  ∧ batched_is_favorite session current_user journals journal
    = direct_is_favorite session current_user journal
  ∧ batched_item session current_user journals journal
    = direct_item session current_user journal.
Proof.
  intros Hin.
  assert (Hid : Journal.id journal ∈ Journal.id <$> journals)
    by (by apply list_elem_of_fmap_2).
  assert (Hs : batched_share_count session journals journal
               = direct_share_count session journal).
  { unfold batched_share_count, direct_share_count, shares_counts_result.
    rewrite group_count_lookup. by apply count_within_page. }
  assert (Hf : batched_is_favorite session current_user journals journal
               = direct_is_favorite session current_user journal).
  { unfold batched_is_favorite, direct_is_favorite, user_favorites_result.
    by apply favorite_within_page. }
  unfold batched_item, direct_item. by rewrite Hs, Hf.
Qed.

(** Hence the two loops build the same feed from the same page. *)
Lemma feed_loop_ext item1 item2 after_append journals feed :
  (∀ journal, journal ∈ journals → item1 journal = item2 journal) →
  feed_loop item1 after_append journals feed
  = feed_loop item2 after_append journals feed.
Proof.
  revert feed. induction journals as [|j journals IH]; intros feed Hext; [done|].
  simpl. rewrite Hext by apply list_elem_of_here.
  destruct (item2 j) as [entry|e]; [simpl|done].
  apply IH. intros j' Hj'. apply Hext. by apply list_elem_of_further.
Qed.

(** ** Tags of a new journal *)

Lemma tag_by_name_Some session tag_name tag :
  Session.tag_by_name session tag_name = Some tag →
  tag ∈ Session.tags session ∧ Tag.name tag = tag_name.
Proof.
  intros H%head_Some_elem_of. by apply list_elem_of_filter in H as [? ?].
Qed.

Lemma tag_by_name_None session tag_name :
  Session.tag_by_name session tag_name = None ↔
  tag_name ∉ Tag.name <$> Session.tags session.
Proof.
  unfold Session.tag_by_name. rewrite head_None. split.
  - intros Hnil (tag & -> & Hin)%list_elem_of_fmap.
    by apply (filter_nil_not_elem_of _ _ tag) in Hnil.
  - intros Hnot. induction (Session.tags session) as [|t ts IH]; [done|].
    apply not_elem_of_cons in Hnot as [Hne Hnot].
    rewrite filter_cons_False by (simpl in Hne; congruence). by apply IH.
Qed.

Lemma tag_by_name_grows session more tag_name tag :
  Session.tag_by_name session tag_name = Some tag →
  Session.tag_by_name
    (Session.set_tags session (Session.tags session ++ more)) tag_name
  = Some tag.
Proof.
  unfold Session.tag_by_name; simpl. rewrite filter_app.
  by destruct (filter _ (Session.tags session)).
Qed.

Lemma tag_by_name_added session tag :
  Session.tag_by_name session (Tag.name tag) = None →
  Session.tag_by_name
    (Session.set_tags session (Session.tags session ++ [tag])) (Tag.name tag)
  = Some tag.
Proof.
  unfold Session.tag_by_name; simpl. rewrite filter_app, head_None.
  intros ->. by rewrite filter_cons_True.
Qed.

Lemma set_tags_set_tags session ts ts' :
  Session.set_tags (Session.set_tags session ts) ts' = Session.set_tags session ts'.
Proof. reflexivity. Qed.

Lemma set_tags_same session :
  Session.set_tags session (Session.tags session ++ []) = session.
Proof. destruct session; simpl. by rewrite app_nil_r. Qed.

(** The loop invariant of [attach_tags], as a postcondition. *)
Lemma attach_tags_spec (names : list string) :
  ∀ session journal_tags, ∃ new_tags added,
    attach_tags names session journal_tags
    = (Session.set_tags session (Session.tags session ++ new_tags),
       journal_tags ++ added)
    ∧ NoDup (Tag.name <$> new_tags)
    ∧ (∀ n, n ∈ Tag.name <$> new_tags ↔
            n ∈ names ∧ n ∉ Tag.name <$> Session.tags session)
    ∧ Tag.name <$> added = names
    ∧ (∀ tag, tag ∈ added →
         Session.tag_by_name
           (Session.set_tags session (Session.tags session ++ new_tags))
           (Tag.name tag) = Some tag).
Proof.
  induction names as [|tag_name rest IH]; intros session journal_tags.
  - exists [], []. simpl. rewrite set_tags_same, app_nil_r.
    split; [done|]. split; [apply NoDup_nil_2|]. split; [|split; [done|]].
    + intros n. split; [by intros ?%elem_of_nil|by intros [?%elem_of_nil _]].
    + by intros tag ?%elem_of_nil.
  - simpl. destruct (Session.tag_by_name session tag_name) as [tag|] eqn:Hfind.
    + destruct (IH session (journal_tags ++ [tag]))
        as (new_tags & added & Heq & Hnodup & Hnew & Hnames & Hrow).
      destruct (tag_by_name_Some _ _ _ Hfind) as [Hin Hname].
      exists new_tags, (tag :: added).
      rewrite Heq, <- app_assoc. split; [done|]. split; [done|].
      split; [|split].
      * intros n. rewrite Hnew, elem_of_cons.
        split; [intros [? ?]; by auto|].
        intros [[->|?] Hnot]; [|done]. destruct Hnot.
        apply list_elem_of_fmap. by exists tag.
      * by rewrite fmap_cons, Hname, Hnames.
      * intros t [->|Ht]%elem_of_cons; [|by apply Hrow].
        apply tag_by_name_grows. by rewrite Hname.
    + set (tag := Tag.mk (Session.next_id (Tag.id <$> Session.tags session)) tag_name).
      set (session1 := Session.set_tags session (Session.tags session ++ [tag])).
      destruct (IH session1 (journal_tags ++ [tag]))
        as (new_tags & added & Heq & Hnodup & Hnew & Hnames & Hrow).
      apply tag_by_name_None in Hfind.
      exists (tag :: new_tags), (tag :: added).
      rewrite Heq, <- app_assoc. subst session1.
      rewrite set_tags_set_tags in *. simpl Session.tags in *.
      rewrite <- app_assoc in *. simpl app in *.
      split; [done|]. split; [|split; [|split]].
      * rewrite fmap_cons. apply NoDup_cons. split; [|done].
        intros [_ Hnot]%Hnew. destruct Hnot.
        rewrite fmap_app. apply elem_of_app. right. by left.
      * intros n. rewrite fmap_cons, !elem_of_cons, Hnew.
        rewrite fmap_app, elem_of_app. simpl. rewrite list_elem_of_singleton.
        destruct (decide (n = tag_name)) as [->|Hne]; [by split; auto|].
        split; [intros [?|[? Hnot]]; [done|]|intros [[?|?] Hnot]; [done|]].
        -- split; [by right|]. intros ?. apply Hnot. by left.
        -- right. split; [done|]. by intros [?|?].
      * by rewrite fmap_cons, Hnames.
      * intros t [->|Ht]%elem_of_cons; [|by apply Hrow].
        replace (Session.tags session ++ tag :: new_tags)
          with ((Session.tags session ++ [tag]) ++ new_tags)
          by (by rewrite <- app_assoc).
        rewrite <- (set_tags_set_tags session (Session.tags session ++ [tag])).
        apply tag_by_name_grows. apply tag_by_name_added.
        by apply tag_by_name_None.
Qed.


(** ** Soft-deleted journals in the listings *)

Lemma elem_of_insert_desc {A} (key : A → Z) (x a : A) (l : list A) :
  x ∈ insert_desc key a l ↔ x = a ∨ x ∈ l.
Proof.
  induction l as [|y l IH]; simpl.
  - rewrite list_elem_of_singleton, elem_of_nil. tauto.
  - case_bool_decide; [by rewrite elem_of_cons|].
    rewrite !elem_of_cons, IH. tauto.
Qed.

Lemma elem_of_sort_desc {A} (key : A → Z) (x : A) (l : list A) :
  x ∈ sort_desc key l ↔ x ∈ l.
Proof.
  unfold sort_desc. induction l as [|a l IH] using rev_ind; [done|].
  rewrite foldl_snoc, elem_of_insert_desc, elem_of_app, list_elem_of_singleton, IH.
  tauto.
Qed.

(** Every entry of a feed stems from a journal of the page. *)
Lemma feed_loop_sound item after_append journals :
  (∀ l x, x ∈ after_append l ↔ x ∈ l) →
  ∀ feed0 feed, feed_loop item after_append journals feed0 = Ok feed →
  ∀ entry, entry ∈ feed →
    entry ∈ feed0 ∨ ∃ journal, journal ∈ journals ∧ item journal = Ok entry.
Proof.
  intros Hafter. induction journals as [|j journals IH]; intros feed0 feed; simpl.
  - intros [= ->] entry Hin. by left.
  - destruct (item j) as [e|] eqn:Hitem; [simpl|done].
    intros Hloop entry Hin.
    destruct (IH _ _ Hloop _ Hin) as [Hold|(j' & Hj' & Hitem')].
    + apply Hafter, elem_of_app in Hold as [?|Hnew]; [by left|].
      apply list_elem_of_singleton in Hnew as ->.
      right. exists j. split; [by left|done].
    + right. exists j'. split; [by right|done].
Qed.

(** Every journal of the page has its entry in the feed. *)
Lemma feed_loop_complete item after_append journals :
  (∀ l x, x ∈ after_append l ↔ x ∈ l) →
  ∀ feed0 feed, feed_loop item after_append journals feed0 = Ok feed →
  (∀ entry, entry ∈ feed0 → entry ∈ feed)
  ∧ ∀ journal, journal ∈ journals →
      ∃ entry, entry ∈ feed ∧ item journal = Ok entry.
Proof.
  intros Hafter. induction journals as [|j journals IH]; intros feed0 feed; simpl.
  - intros [= ->]. split; [done|]. by intros journal ?%elem_of_nil.
  - destruct (item j) as [e|] eqn:Hitem; [simpl|done].
    intros Hloop. destruct (IH _ _ Hloop) as [Hkeep Hall]. split.
    + intros entry Hin. apply Hkeep, Hafter, elem_of_app. by left.
    + intros journal [->|Hin]%elem_of_cons; [|by apply Hall].
      exists e. split; [|done].
      apply Hkeep, Hafter, elem_of_app. right. by apply list_elem_of_singleton.
Qed.

Lemma feed_item_id session journal share_count is_favorite entry :
  feed_item session journal share_count is_favorite = Ok entry →
  JournalFeedResponse.id entry = Journal.id journal.
Proof.
  unfold feed_item. destruct (Session.journal_user _ _); [|done].
  by intros [= <-].
Qed.

Lemma batched_feed_sound session current_user after_append journals response :
  (∀ l x, x ∈ after_append l ↔ x ∈ l) →
  batched_feed session current_user after_append journals = Ok response →
  ∀ entry, entry ∈ APIResponse.data response →
    ∃ journal, journal ∈ journals
               ∧ JournalFeedResponse.id entry = Journal.id journal.
Proof.
  intros Hafter. unfold batched_feed. destruct journals as [|j journals].
  - intros [= <-] entry Hin. by apply elem_of_nil in Hin.
  - destruct (feed_loop _ _ _ _) as [feed|] eqn:Hloop; [simpl|done].
    intros [= <-] entry Hin; simpl in Hin.
    destruct (feed_loop_sound _ _ _ Hafter _ _ Hloop _ Hin)
      as [Hnil|(journal & Hj & Hitem)]; [by apply elem_of_nil in Hnil|].
    exists journal. split; [done|]. by apply feed_item_id in Hitem.
Qed.

(** A page cut out of the journals that pass the [WHERE] clause. *)
Lemma page_of_filter (P : Journal.t → Prop) `{∀ j, Decision (P j)}
    (order : list Journal.t → list Journal.t) skip limit journals journal :
  (∀ l x, x ∈ order l ↔ x ∈ l) →
  journal ∈ take limit (drop skip (order (filter P journals))) →
  P journal ∧ journal ∈ journals.
Proof.
  intros Horder Hin.
  apply (subseteq_take limit) in Hin. apply (subseteq_drop skip) in Hin.
  apply (proj1 (Horder _ _)) in Hin.
  by apply list_elem_of_filter in Hin.
Qed.

(** The four paged feeds and the retrieval by id keep soft-deleted
    journals out: each feed entry is the entry of a row whose
    [is_deleted] is false, and retrieval by id answers the 404 it
    answers for an id without a row. *)
Lemma paged_feeds_exclude_deleted session current_user user_id skip limit
    response :
  get_all_journals session current_user skip limit = Ok response
  ∨ get_user_journals session current_user skip limit = Ok response
  ∨ get_journals_by_user user_id session current_user skip limit = Ok response
  ∨ get_my_journals session current_user skip limit = Ok response →
  ∀ entry, entry ∈ APIResponse.data response →
    ∃ journal, journal ∈ Session.journals session
               ∧ Journal.is_deleted journal = false
               ∧ JournalFeedResponse.id entry = Journal.id journal.
Proof.
  intros Hcase entry Hin.
  assert (Hsorted : ∀ (l : list Journal.t) x,
            x ∈ sort_desc Journal.created_at l ↔ x ∈ l)
    by (intros; apply elem_of_sort_desc).
  destruct Hcase as [Hr|[Hr|[Hr|Hr]]].
  - destruct (batched_feed_sound _ _ _ _ _
                (λ l x, elem_of_sort_desc _ x l) Hr _ Hin) as (journal & Hj & Hid).
    apply (page_of_filter _ id) in Hj as [Hlive Hj]; [|done].
    by exists journal.
  - destruct (batched_feed_sound _ _ _ _ _
                (λ l x, reflexivity _) Hr _ Hin) as (journal & Hj & Hid).
    apply (page_of_filter _ _ _ _ _ _ Hsorted) in Hj as [[Hlive _] Hj].
    by exists journal.
  - destruct (batched_feed_sound _ _ _ _ _
                (λ l x, reflexivity _) Hr _ Hin) as (journal & Hj & Hid).
    apply (page_of_filter _ _ _ _ _ _ Hsorted) in Hj as [[Hlive _] Hj].
    by exists journal.
  - destruct (batched_feed_sound _ _ _ _ _
                (λ l x, reflexivity _) Hr _ Hin) as (journal & Hj & Hid).
    apply (page_of_filter _ _ _ _ _ _ Hsorted) in Hj as [[Hlive _] Hj].
    by exists journal.
Qed.

Lemma get_journal_by_id_rejects_deleted session journal_id journal :
  Session.get_journal session journal_id = Some journal →
  Journal.is_deleted journal = true →
  get_journal_by_id journal_id session
    = Raise (HTTPException HTTP_404_NOT_FOUND "Journal not found")
  ∧ ∀ missing_id, Session.get_journal session missing_id = None →
      get_journal_by_id missing_id session = get_journal_by_id journal_id session.
Proof.
  intros Hget Hdel. unfold get_journal_by_id. rewrite Hget, Hdel.
  split; [done|]. by intros missing_id ->.
Qed.

(** The feed by tag applies no such filter: whenever it answers, every
    journal carrying the tag has its entry, soft-deleted or not. *)
Lemma get_journals_by_tag_lists_every_tagged_journal
    tag_name session current_user tag response journal :
  Session.tag_by_name session tag_name = Some tag →
  get_journals_by_tag tag_name session current_user = Ok response →
  journal ∈ Session.journals session →
  Tag.id tag ∈ Tag.id <$> Journal.tags journal →
  ∃ entry, entry ∈ APIResponse.data response
           ∧ JournalFeedResponse.id entry = Journal.id journal.
Proof.
  intros Htag Hr Hj Htagged. unfold get_journals_by_tag in Hr. rewrite Htag in Hr.
  destruct (feed_loop _ _ _ _) as [feed|] eqn:Hloop; [|done].
  injection Hr as <-. simpl.
  destruct (feed_loop_complete _ _ _ (λ l x, reflexivity _) _ _ Hloop)
    as [_ Hall].
  destruct (Hall journal) as (entry & Hin & Hitem).
  { unfold Session.tag_journals. by apply list_elem_of_filter. }
  exists entry. split; [done|]. by apply feed_item_id in Hitem.
Qed.

(** C1, at a session where journal 2 is soft-deleted and tagged
    "gratitude": the feed by tag lists journal 2, whose row has
    [is_deleted = true], although retrieval by id rejects it. *)
Theorem get_journals_by_tag_lists_deleted_journal :
  Journal.is_deleted <$> Session.get_journal Sample.session 2 = Some true
  ∧ get_journal_by_id 2 Sample.session
    = Raise (HTTPException HTTP_404_NOT_FOUND "Journal not found")
  ∧ ∃ response,
      get_journals_by_tag "gratitude" Sample.session Sample.bob = Ok response
      ∧ JournalFeedResponse.id <$> APIResponse.data response = [1; 2].
Proof.
  split; [reflexivity|]. split; [reflexivity|].
  eexists. split; reflexivity.
Qed.

(** * The properties at the sample session *)

Lemma sample_decode_failure_unauthorized token e :
  Sample.decode_access_token token = Raise e →
  ∃ detail, e = HTTPException HTTP_401_UNAUTHORIZED detail.
Proof.
  unfold Sample.decode_access_token.
  repeat case_bool_decide; try done. intros [= <-]. eauto.
Qed.





(** Alice can neither update nor delete bob's journal 3. *)
Lemma foreign_journal_is_not_found_witness :
  let data := JournalUpdate.mk (Set_ (Some "Mine now")) Unset Unset Unset Unset in
  Session.get_journal Sample.session 3 = Some Sample.journal3
  ∧ Journal.user_id Sample.journal3 ≠ User.id Sample.alice
  ∧ update_journal 3 data Sample.session Sample.alice
    = Raise (HTTPException HTTP_404_NOT_FOUND "Journal not found")
  ∧ delete_journal 3 Sample.session Sample.alice
    = Raise (HTTPException HTTP_404_NOT_FOUND "Journal not found")
  ∧ Session.get_journal
      (session_after Sample.session (delete_journal 3 Sample.session Sample.alice))
      3 = Some Sample.journal3.
Proof.
  intros data. split; [evaluate|]. split; [evaluate|].
  destruct (foreign_journal_is_not_found 3 data Sample.session Sample.alice
              Sample.journal3) as (Hu & Hd & _ & _ & _ & Hrow);
    [evaluate|evaluate|].
  by repeat split.
Defined.

(** Journal 1 in a page with journal 3, seen by bob: two shares, a
    favorite of his, under either strategy. *)
Lemma batched_aggregates_equal_direct_witness :
  Sample.journal1 ∈ [Sample.journal3; Sample.journal1]
  ∧ batched_share_count Sample.session [Sample.journal3; Sample.journal1]
      Sample.journal1
    = direct_share_count Sample.session Sample.journal1
  ∧ batched_is_favorite Sample.session Sample.bob
      [Sample.journal3; Sample.journal1] Sample.journal1
    = direct_is_favorite Sample.session Sample.bob Sample.journal1.
Proof.
  assert (Hin : Sample.journal1 ∈ [Sample.journal3; Sample.journal1])
    by (apply (bool_decide_unpack _); vm_compute; exact I).
  split; [exact Hin|].
  destruct (batched_aggregates_equal_direct Sample.session Sample.bob
              [Sample.journal3; Sample.journal1] Sample.journal1 Hin)
    as (Hs & Hf & _).
  by split.
Defined.



(** * Further properties of the handlers *)

(** ** The feed loop *)

Lemma insert_desc_Permutation {A} (key : A → Z) (x : A) (l : list A) :
  insert_desc key x l ≡ₚ x :: l.
Proof.
  induction l as [|y l IH]; simpl; [done|].
  case_bool_decide; [done|]. rewrite IH. apply Permutation_swap.
Qed.

Lemma sort_desc_Permutation {A} (key : A → Z) (l : list A) :
  sort_desc key l ≡ₚ l.
Proof.
  unfold sort_desc. induction l as [|x l IH] using rev_ind; [done|].
  rewrite foldl_snoc, insert_desc_Permutation, IH.
  by rewrite Permutation_cons_append.
Qed.

Lemma insert_desc_newest_first {A} (key : A → Z) (x : A) (l : list A) :
  newest_first key l → newest_first key (insert_desc key x l).
Proof.
  unfold newest_first. induction l as [|y l IH]; simpl; intros Hs.
  - by repeat constructor.
  - apply StronglySorted_cons in Hs as [Hy Hl].
    case_bool_decide as Hlt.
    + apply StronglySorted_cons. split; [|by apply StronglySorted_cons].
      constructor; [lia|].
      eapply Forall_impl; [exact Hy|]. simpl. intros z Hz. lia.
    + apply StronglySorted_cons. split; [|by apply IH].
      apply Forall_forall. intros z [->|Hz]%elem_of_insert_desc; [lia|].
      by apply (proj1 (Forall_forall _ _) Hy).
Qed.

Lemma sort_desc_newest_first {A} (key : A → Z) (l : list A) :
  newest_first key (sort_desc key l).
Proof.
  unfold sort_desc. induction l as [|x l IH] using rev_ind; [constructor|].
  rewrite foldl_snoc. by apply insert_desc_newest_first.
Qed.

(** The entries of a feed, up to the reordering [after_append] does:
    one per journal of the page, each built by [item]. *)
Lemma feed_loop_entries item after_append journals :
  (∀ l, after_append l ≡ₚ l) →
  ∀ feed0 feed, feed_loop item after_append journals feed0 = Ok feed →
  ∃ entries, feed ≡ₚ feed0 ++ entries
             ∧ Forall2 (λ journal entry, item journal = Ok entry) journals entries.
Proof.
  intros Hafter. induction journals as [|j journals IH]; intros feed0 feed; simpl.
  - intros [= ->]. exists []. by rewrite app_nil_r.
  - destruct (item j) as [e|] eqn:Hitem; [simpl|done]. intros Hloop.
    destruct (IH _ _ Hloop) as (entries & Hperm & Hall).
    exists (e :: entries). split; [|by constructor].
    by rewrite Hperm, Hafter, <- app_assoc.
Qed.

Lemma feed_loop_id_entries item journals :
  ∀ feed0 feed, feed_loop item id journals feed0 = Ok feed →
  ∃ entries, feed = feed0 ++ entries
             ∧ Forall2 (λ journal entry, item journal = Ok entry) journals entries.
Proof.
  induction journals as [|j journals IH]; intros feed0 feed; simpl.
  - intros [= ->]. exists []. by rewrite app_nil_r.
  - destruct (item j) as [e|] eqn:Hitem; [simpl|done]. intros Hloop.
    destruct (IH _ _ Hloop) as (entries & -> & Hall).
    exists (e :: entries). split; [|by constructor].
    by rewrite <- app_assoc.
Qed.

Lemma feed_loop_is_ok item after_append journals :
  (∀ journal, journal ∈ journals → is_ok (item journal) = true) →
  ∀ feed0, is_ok (feed_loop item after_append journals feed0) = true.
Proof.
  induction journals as [|j journals IH]; intros Hitems feed0; [done|]; simpl.
  destruct (item j) as [e|] eqn:Hitem; simpl.
  - apply IH. intros j' Hj'. apply Hitems. by right.
  - specialize (Hitems j (list_elem_of_here _ _)). by rewrite Hitem in Hitems.
Qed.

Lemma feed_loop_raises item after_append journals :
  ∀ feed0 e, feed_loop item after_append journals feed0 = Raise e →
  ∃ journal, journal ∈ journals ∧ item journal = Raise e.
Proof.
  induction journals as [|j journals IH]; intros feed0 e; [done|]; simpl.
  destruct (item j) as [entry|e'] eqn:Hitem; simpl.
  - intros (j' & Hj' & Hr)%IH. exists j'. split; [by right|done].
  - intros [= ->]. exists j. split; [by left|done].
Qed.

Lemma feed_loop_sorted item journals :
  ∀ feed0 feed,
    feed_loop item (sort_desc JournalFeedResponse.created_at) journals feed0
    = Ok feed →
    journals ≠ [] →
    ∃ l, feed = sort_desc JournalFeedResponse.created_at l.
Proof.
  induction journals as [|j journals IH]; intros feed0 feed; [done|]; simpl.
  destruct (item j) as [e|] eqn:Hitem; [simpl|done]. intros Hloop _.
  destruct journals as [|j' journals].
  - injection Hloop as <-. by eexists.
  - by apply (IH _ _ Hloop).
Qed.

(** What [feed_item] copies into an entry. *)
Lemma feed_item_fields session journal share_count is_favorite entry :
  feed_item session journal share_count is_favorite = Ok entry →
  JournalFeedResponse.id entry = Journal.id journal
  ∧ JournalFeedUserResponse.id (JournalFeedResponse.user entry)
    = Journal.user_id journal
  ∧ JournalFeedResponse.created_at entry = Journal.created_at journal
  ∧ JournalFeedResponse.title entry = Journal.title journal
  ∧ JournalFeedResponse.is_private entry = Journal.is_private journal
  ∧ JournalFeedResponse.comment_count entry
    = length (Session.journal_comments session journal)
  ∧ JournalFeedResponse.share_count entry = share_count
  ∧ JournalFeedResponse.is_favorite entry = is_favorite
  ∧ TagResponse.name <$> JournalFeedResponse.tags entry
    = Tag.name <$> Journal.tags journal.
Proof.
  unfold feed_item, Session.journal_user.
  destruct (Session.user_by_id _ _) as [user|] eqn:Hu; [|done].
  intros [= <-]; simpl.
  apply head_Some_elem_of, list_elem_of_filter in Hu as [Hid _].
  repeat split; try done.
  by rewrite <- list_fmap_compose.
Qed.

Lemma feed_item_is_ok session journal share_count is_favorite :
  is_ok (feed_item session journal share_count is_favorite) = true ↔
  is_Some (Session.journal_user session journal).
Proof.
  unfold feed_item. destruct (Session.journal_user _ _); simpl.
  - split; [by eauto|done].
  - split; [done|by intros [? ?]].
Qed.

Lemma feed_item_raises session journal share_count is_favorite e :
  feed_item session journal share_count is_favorite = Raise e →
  Session.journal_user session journal = None
  ∧ e = AttributeError "'NoneType' object has no attribute 'id'".
Proof.
  unfold feed_item. destruct (Session.journal_user _ _); [done|].
  by intros [= <-].
Qed.

Lemma batched_item_direct session current_user journals journal :
  journal ∈ journals →
  batched_item session current_user journals journal
  = direct_item session current_user journal.
Proof.
  intros Hin.
  assert (Hid : Journal.id journal ∈ Journal.id <$> journals)
    by (by apply list_elem_of_fmap_2).
  unfold batched_item, direct_item, batched_share_count, batched_is_favorite,
    direct_share_count, direct_is_favorite, shares_counts_result,
    user_favorites_result.
  by rewrite group_count_lookup, count_within_page, favorite_within_page.
Qed.

(** A paged feed is the loop of the direct strategy over the page. *)
Lemma batched_feed_direct session current_user after_append journals :
  batched_feed session current_user after_append journals
  = feed ← feed_loop (direct_item session current_user) after_append journals [];
    Ok (APIResponse.mk "Journals retrieved successfully" feed).
Proof.
  unfold batched_feed. destruct journals as [|j journals]; [done|].
  rewrite (feed_loop_ext _ (direct_item session current_user)); [done|].
  intros journal Hin. by apply batched_item_direct.
Qed.

(** The entries of a paged feed: a reordering of the entries the direct
    strategy builds for the journals of the page. *)
Lemma batched_feed_entries session current_user after_append journals response :
  (∀ l, after_append l ≡ₚ l) →
  batched_feed session current_user after_append journals = Ok response →
  ∃ entries,
    APIResponse.data response ≡ₚ entries
    ∧ Forall2 (λ journal entry,
                 direct_item session current_user journal = Ok entry)
        journals entries.
Proof.
  intros Hafter. rewrite batched_feed_direct.
  destruct (feed_loop _ _ _ _) as [feed|] eqn:Hloop; [simpl|done].
  intros [= <-]. simpl.
  destruct (feed_loop_entries _ _ _ Hafter _ _ Hloop) as (entries & Hperm & Hall).
  by exists entries.
Qed.

(** Without sorting in the loop, they come in page order. *)
Lemma batched_feed_id_entries session current_user journals response :
  batched_feed session current_user id journals = Ok response →
  Forall2 (λ journal entry, direct_item session current_user journal = Ok entry)
    journals (APIResponse.data response).
Proof.
  rewrite batched_feed_direct.
  destruct (feed_loop _ _ _ _) as [feed|] eqn:Hloop; [simpl|done].
  intros [= <-]. simpl.
  by destruct (feed_loop_id_entries _ _ _ _ Hloop) as (entries & -> & Hall).
Qed.

(** ** The paged feeds *)

Lemma newest_first_take_drop {A} (key : A → Z) (l : list A) skip limit :
  newest_first key l → newest_first key (take limit (drop skip l)).
Proof.
  unfold newest_first. intros Hs.
  rewrite <- (take_drop skip l) in Hs. apply StronglySorted_app_1_r in Hs.
  rewrite <- (take_drop limit (drop skip l)) in Hs.
  by apply StronglySorted_app_1_l in Hs.
Qed.

Lemma newest_first_Forall2 {A B} (key1 : A → Z) (key2 : B → Z) l1 l2 :
  Forall2 (λ a b, key2 b = key1 a) l1 l2 →
  newest_first key1 l1 → newest_first key2 l2.
Proof.
  unfold newest_first. induction 1 as [|a b l1 l2 Hab Hall IH]; [constructor|].
  intros [Ha Hl]%StronglySorted_cons. apply StronglySorted_cons.
  split; [|by apply IH]. clear IH Hl.
  induction Hall as [|a' b' l1 l2 Hab' Hall IH]; [constructor|].
  apply Forall_cons in Ha as [Ha' Ha]. constructor; [lia|by apply IH].
Qed.

Lemma length_filter_and {A} (P Q : A → Prop) `{∀ x, Decision (P x)}
    `{∀ x, Decision (Q x)} (l : list A) :
  (length (filter (λ x, P x ∧ Q x) l) ≤ length (filter P l))%nat.
Proof.
  induction l as [|x l IH]; [done|].
  rewrite !filter_cons.
  destruct (decide (P x ∧ Q x)) as [[HP HQ]|Hn].
  - rewrite decide_True by done. simpl. lia.
  - destruct (decide (P x)); simpl; lia.
Qed.

Lemma length_page {A} (l : list A) skip limit :
  length (take limit (drop skip l)) = (limit `min` (length l - skip))%nat.
Proof. by rewrite length_take, length_drop. Qed.

(** The page behind each of the four paged feeds and its entries. *)
Lemma paged_feeds_page session current_user user_id skip limit response :
  get_all_journals session current_user skip limit = Ok response
  ∨ get_user_journals session current_user skip limit = Ok response
  ∨ get_journals_by_user user_id session current_user skip limit = Ok response
  ∨ get_my_journals session current_user skip limit = Ok response →
  ∃ page entries,
    APIResponse.data response ≡ₚ entries
    ∧ Forall2 (λ journal entry,
                 direct_item session current_user journal = Ok entry)
        page entries
    ∧ (length page ≤ limit `min`
         (length (filter (λ j, Journal.is_deleted j = false)
                    (Session.journals session)) - skip))%nat
    ∧ ∀ journal, journal ∈ page →
        journal ∈ Session.journals session ∧ Journal.is_deleted journal = false.
Proof.
  assert (Hsorted : ∀ (l : list Journal.t) x,
            x ∈ sort_desc Journal.created_at l ↔ x ∈ l)
    by (intros; apply elem_of_sort_desc).
  intros [Hr|[Hr|[Hr|Hr]]].
  - destruct (batched_feed_entries _ _ _ _ _
                (sort_desc_Permutation _) Hr) as (entries & Hperm & Hall).
    eexists _, entries. split; [done|]. split; [exact Hall|]. split.
    + by rewrite length_page.
    + intros journal Hj.
      by apply (page_of_filter _ id) in Hj as [Hlive Hj].
  - pose proof (batched_feed_id_entries _ _ _ _ Hr) as Hall.
    eexists _, _. split; [done|]. split; [exact Hall|]. split.
    + rewrite length_page, (Permutation_length (sort_desc_Permutation _ _)).
      pose proof (length_filter_and (λ j, Journal.is_deleted j = false)
                    (λ j, Journal.user_id j = User.id current_user)
                    (Session.journals session)). lia.
    + intros journal Hj.
      by apply (page_of_filter _ _ _ _ _ _ Hsorted) in Hj as [[Hlive _] Hj].
  - pose proof (batched_feed_id_entries _ _ _ _ Hr) as Hall.
    eexists _, _. split; [done|]. split; [exact Hall|]. split.
    + rewrite length_page, (Permutation_length (sort_desc_Permutation _ _)).
      pose proof (length_filter_and (λ j, Journal.is_deleted j = false)
                    (λ j, Journal.user_id j = user_id)
                    (Session.journals session)). lia.
    + intros journal Hj.
      by apply (page_of_filter _ _ _ _ _ _ Hsorted) in Hj as [[Hlive _] Hj].
  - pose proof (batched_feed_id_entries _ _ _ _ Hr) as Hall.
    eexists _, _. split; [done|]. split; [exact Hall|]. split.
    + rewrite length_page, (Permutation_length (sort_desc_Permutation _ _)).
      pose proof (length_filter_and (λ j, Journal.is_deleted j = false)
                    (λ j, Journal.user_id j = User.id current_user)
                    (Session.journals session)). lia.
    + intros journal Hj.
      by apply (page_of_filter _ _ _ _ _ _ Hsorted) in Hj as [[Hlive _] Hj].
Qed.

(** X1.  Each of the four paged feeds answers newest first: the entries
    are in descending order of [created_at]. *)
Theorem paged_feeds_newest_first session current_user user_id skip limit
    response :
  get_all_journals session current_user skip limit = Ok response
  ∨ get_user_journals session current_user skip limit = Ok response
  ∨ get_journals_by_user user_id session current_user skip limit = Ok response
  ∨ get_my_journals session current_user skip limit = Ok response →
  newest_first JournalFeedResponse.created_at (APIResponse.data response).
Proof.
  assert (Hid : ∀ page,
    batched_feed session current_user id page = Ok response →
    newest_first Journal.created_at page →
    newest_first JournalFeedResponse.created_at (APIResponse.data response)).
  { intros page Hr Hpage. apply batched_feed_id_entries in Hr.
    eapply newest_first_Forall2; [|exact Hpage].
    eapply Forall2_impl; [exact Hr|]. simpl. intros j e Hitem.
    by apply feed_item_fields in Hitem as (_ & _ & ? & _). }
  intros [Hr|[Hr|[Hr|Hr]]].
  - unfold get_all_journals in Hr. rewrite batched_feed_direct in Hr.
    destruct (feed_loop _ _ _ _) as [feed|] eqn:Hloop; [|done].
    injection Hr as <-. simpl.
    destruct (take limit _) as [|j page] eqn:Hpage.
    + injection Hloop as <-. constructor.
    + destruct (feed_loop_sorted _ _ _ _ Hloop) as [l ->]; [done|].
      apply sort_desc_newest_first.
  - apply (Hid _ Hr), newest_first_take_drop, sort_desc_newest_first.
  - apply (Hid _ Hr), newest_first_take_drop, sort_desc_newest_first.
  - apply (Hid _ Hr), newest_first_take_drop, sort_desc_newest_first.
Qed.

(** X2.  A paged feed holds at most [limit] entries and at most the
    live journals left after [skip]; "list all" holds exactly that many.
    So a [limit] of 0, or a [skip] past the last live journal, gives the
    empty list as a success. *)
Theorem paged_feeds_size session current_user user_id skip limit response :
  let live :=
    length (filter (λ j, Journal.is_deleted j = false) (Session.journals session)) in
  (get_all_journals session current_user skip limit = Ok response →
   length (APIResponse.data response) = (limit `min` (live - skip))%nat)
  ∧ (get_user_journals session current_user skip limit = Ok response
     ∨ get_journals_by_user user_id session current_user skip limit = Ok response
     ∨ get_my_journals session current_user skip limit = Ok response →
     (length (APIResponse.data response) ≤ limit `min` (live - skip))%nat).
Proof.
  intros live. split.
  - intros Hr.
    destruct (batched_feed_entries _ _ _ _ _
                (sort_desc_Permutation _) Hr) as (entries & Hperm & Hall).
    rewrite (Permutation_length Hperm), <- (Forall2_length _ _ _ Hall).
    by rewrite length_page.
  - intros Hr.
    destruct (paged_feeds_page session current_user user_id skip limit response)
      as (page & entries & Hperm & Hall & Hlen & _); [tauto|].
    by rewrite (Permutation_length Hperm), <- (Forall2_length _ _ _ Hall).
Qed.

Lemma direct_item_is_ok session current_user journal :
  owners_exist session → journal ∈ Session.journals session →
  is_ok (direct_item session current_user journal) = true.
Proof.
  intros Hown Hj. apply feed_item_is_ok.
  by apply (proj1 (Forall_forall _ _) Hown).
Qed.

Lemma batched_feed_is_ok session current_user after_append journals :
  owners_exist session →
  (∀ journal, journal ∈ journals → journal ∈ Session.journals session) →
  is_ok (batched_feed session current_user after_append journals) = true.
Proof.
  intros Hown Hsub. rewrite batched_feed_direct.
  pose proof (feed_loop_is_ok (direct_item session current_user) after_append
                journals) as Hloop.
  destruct (feed_loop _ _ _ _) as [feed|] eqn:Hfeed; [done|].
  rewrite <- (Hloop (λ j Hj, direct_item_is_ok _ _ _ Hown (Hsub j Hj)) []).
  by rewrite Hfeed.
Qed.

(** X3.  When every journal row has its owner's row, the four paged
    feeds always answer with a success, and so does the feed by tag for a
    tag that exists; a feed that raises does so with the AttributeError
    of a journal without owner, never with an HTTP error. *)
Theorem feeds_succeed_when_owners_exist session current_user user_id skip limit :
  (owners_exist session →
     is_ok (get_all_journals session current_user skip limit) = true
     ∧ is_ok (get_user_journals session current_user skip limit) = true
     ∧ is_ok (get_journals_by_user user_id session current_user skip limit) = true
     ∧ is_ok (get_my_journals session current_user skip limit) = true
     ∧ ∀ tag_name, is_Some (Session.tag_by_name session tag_name) →
         is_ok (get_journals_by_tag tag_name session current_user) = true)
  ∧ (∀ e,
       get_all_journals session current_user skip limit = Raise e
       ∨ get_user_journals session current_user skip limit = Raise e
       ∨ get_journals_by_user user_id session current_user skip limit = Raise e
       ∨ get_my_journals session current_user skip limit = Raise e →
       e = AttributeError "'NoneType' object has no attribute 'id'"
       ∧ ¬ owners_exist session).
Proof.
  assert (Hsorted : ∀ (l : list Journal.t) x,
            x ∈ sort_desc Journal.created_at l ↔ x ∈ l)
    by (intros; apply elem_of_sort_desc).
  split.
  - intros Hown. repeat apply conj.
    + apply batched_feed_is_ok; [done|]. intros j Hj.
      by apply (page_of_filter _ id) in Hj as [_ Hj].
    + apply batched_feed_is_ok; [done|]. intros j Hj.
      by apply (page_of_filter _ _ _ _ _ _ Hsorted) in Hj as [_ Hj].
    + apply batched_feed_is_ok; [done|]. intros j Hj.
      by apply (page_of_filter _ _ _ _ _ _ Hsorted) in Hj as [_ Hj].
    + apply batched_feed_is_ok; [done|]. intros j Hj.
      by apply (page_of_filter _ _ _ _ _ _ Hsorted) in Hj as [_ Hj].
    + intros tag_name [tag Htag]. unfold get_journals_by_tag. rewrite Htag.
      pose proof (feed_loop_is_ok (direct_item session current_user) id
                    (Session.tag_journals session tag)) as Hloop.
      destruct (feed_loop _ _ _ _) as [feed|] eqn:Hfeed; [done|].
      rewrite <- (Hloop (λ j Hj, direct_item_is_ok _ _ _ Hown
                           (proj2 (proj1 (list_elem_of_filter _ _ _) Hj))) []).
      by rewrite Hfeed.
  - assert (Hbatched : ∀ after_append page e,
      (∀ journal, journal ∈ page → journal ∈ Session.journals session) →
      batched_feed session current_user after_append page = Raise e →
      e = AttributeError "'NoneType' object has no attribute 'id'"
      ∧ ¬ owners_exist session).
    { intros after_append page e Hsub Hr. rewrite batched_feed_direct in Hr.
      destruct (feed_loop _ _ _ _) as [feed|e'] eqn:Hloop; [done|].
      injection Hr as ->.
      apply feed_loop_raises in Hloop as (j & Hj & Hitem).
      apply feed_item_raises in Hitem as [Hnone ->]. split; [done|].
      intros Hown. apply Hsub in Hj.
      apply (proj1 (Forall_forall _ _) Hown) in Hj as [u Hu]. congruence. }
    intros e [Hr|[Hr|[Hr|Hr]]]; apply Hbatched in Hr; try done.
    + intros j Hj. by apply (page_of_filter _ id) in Hj as [_ Hj].
    + intros j Hj. by apply (page_of_filter _ _ _ _ _ _ Hsorted) in Hj as [_ Hj].
    + intros j Hj. by apply (page_of_filter _ _ _ _ _ _ Hsorted) in Hj as [_ Hj].
    + intros j Hj. by apply (page_of_filter _ _ _ _ _ _ Hsorted) in Hj as [_ Hj].
Qed.

(** X4.  The feed of a user holds only that user's journals: every entry
    of "list by user id" carries the requested user id as its author, and
    every entry of the caller's own feeds carries the caller's id. *)
Theorem user_feeds_hold_the_users_journals session current_user user_id
    skip limit response :
  (get_journals_by_user user_id session current_user skip limit = Ok response →
   ∀ entry, entry ∈ APIResponse.data response →
     JournalFeedUserResponse.id (JournalFeedResponse.user entry) = user_id)
  ∧ (get_user_journals session current_user skip limit = Ok response
     ∨ get_my_journals session current_user skip limit = Ok response →
     ∀ entry, entry ∈ APIResponse.data response →
       JournalFeedUserResponse.id (JournalFeedResponse.user entry)
       = User.id current_user).
Proof.
  assert (Hsorted : ∀ (l : list Journal.t) x,
            x ∈ sort_desc Journal.created_at l ↔ x ∈ l)
    by (intros; apply elem_of_sort_desc).
  assert (Hpage : ∀ (P : Journal.t → Prop) `{∀ j, Decision (P j)} uid,
    (∀ j, P j → Journal.user_id j = uid) →
    batched_feed session current_user id
      (take limit (drop skip (sort_desc Journal.created_at
         (filter P (Session.journals session))))) = Ok response →
    ∀ entry, entry ∈ APIResponse.data response →
      JournalFeedUserResponse.id (JournalFeedResponse.user entry) = uid).
  { intros P HP uid Huid Hr entry Hin.
    apply batched_feed_id_entries in Hr.
    apply list_elem_of_lookup in Hin as [i Hi].
    destruct (Forall2_lookup_r _ _ _ _ _ Hr Hi) as (j & Hj & Hitem).
    apply list_elem_of_lookup_2 in Hj.
    apply (page_of_filter _ _ _ _ _ _ Hsorted) in Hj as [HPj _].
    apply feed_item_fields in Hitem as (_ & -> & _). by apply Huid. }
  split.
  - apply Hpage. by intros j [_ ?].
  - intros [Hr|Hr]; revert Hr; apply Hpage; by intros j [_ ?].
Qed.

Lemma direct_is_favorite_true session current_user journal :
  direct_is_favorite session current_user journal = true ↔
  ∃ fv, fv ∈ Session.journal_favorites session
        ∧ JournalFavorites.journal_id fv = Journal.id journal
        ∧ JournalFavorites.user_id fv = User.id current_user.
Proof.
  unfold direct_is_favorite.
  destruct (head _) as [fv|] eqn:Hhead.
  - apply head_Some_elem_of, list_elem_of_filter in Hhead as [[Hj Hu] Hin].
    split; [|done]. intros _. by exists fv.
  - apply head_None in Hhead. split; [done|].
    intros (fv & Hin & Hj & Hu).
    assert (Hfv : fv ∈ filter
              (λ fv', JournalFavorites.journal_id fv' = Journal.id journal
                      ∧ JournalFavorites.user_id fv' = User.id current_user)
              (Session.journal_favorites session))
      by (by apply list_elem_of_filter).
    rewrite Hhead in Hfv. by apply elem_of_nil in Hfv.
Qed.

(** X5.  In each of the four paged feeds, every entry is the entry of a
    live journal row and carries that row's aggregates: the number of its
    share rows, the number of its comments, and a favorite flag that is
    true exactly when the caller has a favorite row for it. *)
Theorem paged_feeds_aggregates session current_user user_id skip limit response :
  get_all_journals session current_user skip limit = Ok response
  ∨ get_user_journals session current_user skip limit = Ok response
  ∨ get_journals_by_user user_id session current_user skip limit = Ok response
  ∨ get_my_journals session current_user skip limit = Ok response →
  ∀ entry, entry ∈ APIResponse.data response →
    ∃ journal,
      journal ∈ Session.journals session
      ∧ Journal.is_deleted journal = false
      ∧ JournalFeedResponse.id entry = Journal.id journal
      ∧ JournalFeedResponse.share_count entry
        = length (filter (λ sh, JournalShares.journal_id sh = Journal.id journal)
                    (Session.journal_shares session))
      ∧ JournalFeedResponse.comment_count entry
        = length (filter (λ c, Comment.journal_id c = Journal.id journal)
                    (Session.comments session))
      ∧ (JournalFeedResponse.is_favorite entry = true ↔
         ∃ fv, fv ∈ Session.journal_favorites session
               ∧ JournalFavorites.journal_id fv = Journal.id journal
               ∧ JournalFavorites.user_id fv = User.id current_user).
Proof.
  intros Hr entry Hin.
  destruct (paged_feeds_page _ _ _ _ _ _ Hr)
    as (page & entries & Hperm & Hall & _ & Hpage).
  rewrite Hperm in Hin. apply list_elem_of_lookup in Hin as [i Hi].
  destruct (Forall2_lookup_r _ _ _ _ _ Hall Hi) as (journal & Hj & Hitem).
  apply list_elem_of_lookup_2, Hpage in Hj as [Hj Hlive].
  apply feed_item_fields in Hitem as (Hid & _ & _ & _ & _ & Hc & Hs & Hf & _).
  exists journal. repeat (split; [done|]).
  rewrite Hf. apply direct_is_favorite_true.
Qed.

(** X6.  The feed by tag answers 404 "Tag not found" exactly for a name
    without Tag row; for a tag that no journal carries it answers with
    the empty list, as a success. *)
Theorem get_journals_by_tag_unknown_or_unused tag_name session current_user :
  (get_journals_by_tag tag_name session current_user
     = Raise (HTTPException HTTP_404_NOT_FOUND "Tag not found")
   ↔ tag_name ∉ Tag.name <$> Session.tags session)
  ∧ (∀ tag, Session.tag_by_name session tag_name = Some tag →
       (∀ journal, journal ∈ Session.journals session →
          Tag.id tag ∉ Tag.id <$> Journal.tags journal) →
       get_journals_by_tag tag_name session current_user
       = Ok (APIResponse.mk
               ("Journals with tag '" +:+ tag_name +:+ "' retrieved successfully")
               [])).
Proof.
  split.
  - rewrite <- tag_by_name_None. unfold get_journals_by_tag.
    destruct (Session.tag_by_name session tag_name) as [tag|]; [|done].
    split; [|done]. intros Hr.
    destruct (feed_loop _ _ _ _) as [feed|e] eqn:Hloop; [done|].
    injection Hr as ->.
    apply feed_loop_raises in Hloop as (j & _ & Hitem).
    by apply feed_item_raises in Hitem as [_ ?].
  - intros tag Htag Hnone. unfold get_journals_by_tag. rewrite Htag.
    assert (Hempty : Session.tag_journals session tag = []).
    { apply elem_of_nil_inv. intros j [Hj Hin]%list_elem_of_filter.
      by apply (Hnone j). }
    by rewrite Hempty.
Qed.

(** ** Reactions, favorites and shares after they are created *)

Lemma next_id_fresh (ids : list Z) : Session.next_id ids ∉ ids.
Proof.
  assert (Hmax : ∀ x, x ∈ ids → (x ≤ foldr Z.max 0 ids)%Z).
  { induction ids as [|y ids IH]; intros x Hx; [by apply elem_of_nil in Hx|].
    simpl. apply elem_of_cons in Hx as [->|Hx]; [lia|].
    specialize (IH x Hx). lia. }
  intros Hin%Hmax. unfold Session.next_id in Hin. lia.
Qed.

Lemma bool_eq_iff (b1 b2 : bool) : (b1 = true ↔ b2 = true) → b1 = b2.
Proof. destruct b1, b2; intros [H1 H2]; auto; by (rewrite H1 || rewrite H2). Qed.

Lemma create_journal_favorite_result now data session current_user :
  create_journal_favorite now data session current_user
  = let row :=
      JournalFavorites.mk
        (Session.next_id (JournalFavorites.id <$> Session.journal_favorites session))
        (JournalFavoriteCreate.journal_id data) (User.id current_user) now in
    Ok (APIResponse.mk "Journal favorite created successfully" row,
        Session.set_journal_favorites session
          (Session.journal_favorites session ++ [row])).
Proof. by destruct data. Qed.

Lemma create_journal_share_result now data session current_user :
  create_journal_share now data session current_user
  = let row :=
      JournalShares.mk
        (Session.next_id (JournalShares.id <$> Session.journal_shares session))
        (JournalShareCreate.journal_id data) (User.id current_user)
        (JournalShareCreate.share_type data) now in
    Ok (APIResponse.mk "Journal share created successfully" row,
        Session.set_journal_shares session
          (Session.journal_shares session ++ [row])).
Proof. by destruct data. Qed.

Lemma create_journal_reaction_result now data session current_user :
  create_journal_reaction now data session current_user
  = let row :=
      JournalReactions.mk
        (Session.next_id (JournalReactions.id <$> Session.journal_reactions session))
        (JournalReactionCreate.journal_id data) (User.id current_user)
        (JournalReactionCreate.reaction_type data) now in
    Ok (APIResponse.mk "Journal reaction created successfully" row,
        Session.set_journal_reactions session
          (Session.journal_reactions session ++ [row])).
Proof. by destruct data. Qed.

Lemma create_journal_report_result now data session current_user :
  create_journal_report now data session current_user
  = let row :=
      JournalReports.mk
        (Session.next_id (JournalReports.id <$> Session.journal_reports session))
        (JournalReportCreate.journal_id data) (User.id current_user)
        (JournalReportCreate.reason data) "pending" now None in
    Ok (APIResponse.mk "Journal report created successfully" row,
        Session.set_journal_reports session
          (Session.journal_reports session ++ [row])).
Proof. by destruct data. Qed.





Lemma attach_tags_other_tables (names : list string) :
  ∀ session journal_tags,
    Session.set_tags (attach_tags names session journal_tags).1
      (Session.tags session) = session.
Proof.
  induction names as [|tag_name rest IH]; intros session journal_tags; simpl.
  - by destruct session.
  - destruct (Session.tag_by_name session tag_name).
    + apply IH.
    + specialize (IH (Session.set_tags session
                        (Session.tags session
                           ++ [Tag.mk (Session.next_id (Tag.id <$> Session.tags session))
                                 tag_name]))
                     (journal_tags
                        ++ [Tag.mk (Session.next_id (Tag.id <$> Session.tags session))
                              tag_name])).
      simpl in IH.
      destruct (attach_tags rest _ _) as [s' jt]. simpl in *.
      destruct s', session; simpl in *. by injection IH as -> -> -> -> -> -> ->.
Qed.

(** ** Journals after they are created, updated or deleted *)

Lemma filter_id_absent (journal_id : Z) (journals : list Journal.t) :
  journal_id ∉ Journal.id <$> journals →
  filter (λ j, Journal.id j = journal_id) journals = [].
Proof.
  induction journals as [|j journals IH]; [done|].
  rewrite fmap_cons. intros [Hne Hnot]%not_elem_of_cons.
  rewrite filter_cons_False by congruence. by apply IH.
Qed.

Lemma create_journal_result now data session current_user :
  ∃ session1 journal_tags,
    attach_tags (JournalCreate.tags data) session [] = (session1, journal_tags)
    ∧ Session.journals session1 = Session.journals session
    ∧ create_journal now data session current_user
      = let journal :=
          Journal.mk (Session.next_id (Journal.id <$> Session.journals session))
            (User.id current_user) (Some (JournalCreate.title data))
            (JournalCreate.body_snippet data) (JournalCreate.html_content data)
            (Some (JournalCreate.is_private data)) (JournalCreate.image_url data)
            false DeletedAtNone now now journal_tags in
        Ok (APIResponse.mk "Journal created successfully" journal,
            Session.set_journals session1 (Session.journals session ++ [journal])).
Proof.
  unfold create_journal.
  assert (Hloop :
    (if bool_decide (JournalCreate.tags data = [])
     then (session, [])
     else attach_tags (JournalCreate.tags data) session [])
    = attach_tags (JournalCreate.tags data) session []).
  { case_bool_decide as Hnil; [|done]. by rewrite Hnil. }
  rewrite Hloop.
  pose proof (attach_tags_other_tables (JournalCreate.tags data) session [])
    as Hother.
  destruct (attach_tags _ _ _) as [session1 journal_tags]. simpl in *.
  assert (Hjs : Session.journals session1 = Session.journals session)
    by (by rewrite <- Hother).
  exists session1, journal_tags. by rewrite Hjs.
Qed.


Lemma store_journal_ids (j' : Journal.t) (journals : list Journal.t) :
  Journal.id <$> Session.store_journal j' journals = Journal.id <$> journals.
Proof.
  induction journals as [|j journals IH]; [done|]; simpl.
  case_bool_decide as Hid; rewrite !fmap_cons; [by rewrite Hid|by rewrite IH].
Qed.

Lemma store_journal_same (journal : Journal.t) (journals : list Journal.t) :
  head (filter (λ j, Journal.id j = Journal.id journal) journals) = Some journal →
  Session.store_journal journal journals = journals.
Proof.
  induction journals as [|j journals IH]; [done|]; simpl.
  rewrite filter_cons. case_decide as Hid.
  - intros [= ->]. by rewrite bool_decide_eq_true_2.
  - intros Hh. rewrite bool_decide_eq_false_2 by done. by rewrite IH.
Qed.

Lemma set_journals_same session :
  Session.set_journals session (Session.journals session) = session.
Proof. by destruct session. Qed.

Lemma store_fetched_journal session journal_id journal :
  Session.get_journal session journal_id = Some journal →
  Session.set_journals session
    (Session.store_journal journal (Session.journals session)) = session.
Proof.
  intros Hget. destruct (get_journal_Some _ _ _ Hget) as [_ <-].
  rewrite store_journal_same by done. apply set_journals_same.
Qed.



Lemma NoDup_fmap_elem_eq {A B} (f : A → B) (l : list A) (x y : A) :
  NoDup (f <$> l) → x ∈ l → y ∈ l → f x = f y → x = y.
Proof.
  induction l as [|a l IH]; [by intros _ ?%elem_of_nil|].
  rewrite fmap_cons. intros [Hnot Hnd]%NoDup_cons.
  intros [->|Hx]%elem_of_cons [->|Hy]%elem_of_cons Heq; try done.
  - destruct Hnot. rewrite Heq. by apply list_elem_of_fmap_2.
  - destruct Hnot. rewrite <- Heq. by apply list_elem_of_fmap_2.
  - by apply IH.
Qed.



(** ** A journal seen by its owner and by others *)

Section Visibility.

Variable decode_access_token : string → result Claims.


End Visibility.

(** * The further properties at the sample session *)

Lemma sample_owners_exist : owners_exist Sample.session.
Proof. apply (bool_decide_unpack _). vm_compute. exact I. Qed.

Lemma sample_journal_ids_unique :
  NoDup (Journal.id <$> Session.journals Sample.session).
Proof. apply (bool_decide_unpack _). vm_compute. exact I. Qed.

Lemma paged_feeds_newest_first_witness :
  ∃ response,
    get_all_journals Sample.session Sample.bob 0 10 = Ok response
    ∧ newest_first JournalFeedResponse.created_at (APIResponse.data response).
Proof.
  eexists. split; [vm_compute; reflexivity|].
  apply (paged_feeds_newest_first Sample.session Sample.bob 0 0 10).
  left. vm_compute. reflexivity.
Defined.

Lemma paged_feeds_size_witness :
  ∃ response,
    get_all_journals Sample.session Sample.bob 1 10 = Ok response
    ∧ length (APIResponse.data response) = 1%nat.
Proof.
  eexists. split; [vm_compute; reflexivity|].
  eapply (proj1 (paged_feeds_size Sample.session Sample.bob 0 1 10 _)).
  vm_compute. reflexivity.
Defined.

Lemma feeds_succeed_when_owners_exist_witness :
  owners_exist Sample.session
  ∧ is_ok (get_all_journals Sample.session Sample.bob 0 10) = true
  ∧ is_ok (get_journals_by_tag "gratitude" Sample.session Sample.bob) = true.
Proof.
  split; [exact sample_owners_exist|].
  destruct (feeds_succeed_when_owners_exist Sample.session Sample.bob 0 0 10)
    as [Hok _].
  destruct (Hok sample_owners_exist) as (Hall & _ & _ & _ & Htag).
  split; [exact Hall|]. apply Htag. vm_compute. eauto.
Defined.

Lemma user_feeds_hold_the_users_journals_witness :
  ∃ response,
    get_journals_by_user 1 Sample.session Sample.bob 0 10 = Ok response
    ∧ ∀ entry, entry ∈ APIResponse.data response →
        JournalFeedUserResponse.id (JournalFeedResponse.user entry) = 1.
Proof.
  eexists. split; [vm_compute; reflexivity|].
  eapply (proj1 (user_feeds_hold_the_users_journals Sample.session Sample.bob 1
                   0 10 _)).
  vm_compute. reflexivity.
Defined.

Lemma paged_feeds_aggregates_witness :
  ∃ response,
    get_my_journals Sample.session Sample.alice 0 10 = Ok response
    ∧ ∀ entry, entry ∈ APIResponse.data response →
        ∃ journal,
          journal ∈ Session.journals Sample.session
          ∧ Journal.is_deleted journal = false
          ∧ JournalFeedResponse.id entry = Journal.id journal.
Proof.
  eexists. split; [vm_compute; reflexivity|].
  intros entry Hin.
  destruct (paged_feeds_aggregates Sample.session Sample.alice 0 0 10 _
              (or_intror (or_intror (or_intror eq_refl))) entry Hin)
    as (journal & Hj & Hlive & Hid & _).
  by exists journal.
Defined.

Lemma get_journals_by_tag_unknown_or_unused_witness :
  let session :=
    Session.set_tags Sample.session
      (Session.tags Sample.session ++ [Tag.mk 3 "unused"]) in
  ("evening" ∉ Tag.name <$> Session.tags session)
  ∧ get_journals_by_tag "evening" session Sample.bob
    = Raise (HTTPException HTTP_404_NOT_FOUND "Tag not found")
  ∧ get_journals_by_tag "unused" session Sample.bob
    = Ok (APIResponse.mk "Journals with tag 'unused' retrieved successfully" []).
Proof.
  intros session.
  assert (Hnot : "evening" ∉ Tag.name <$> Session.tags session)
    by (apply (bool_decide_unpack _); vm_compute; exact I).
  split; [exact Hnot|].
  destruct (get_journals_by_tag_unknown_or_unused "evening" session Sample.bob)
    as [Hunknown _].
  destruct (get_journals_by_tag_unknown_or_unused "unused" session Sample.bob)
    as [_ Hunused].
  split; [by apply Hunknown|].
  apply (Hunused (Tag.mk 3 "unused")); [vm_compute; reflexivity|].
  intros journal Hj.
  apply (bool_decide_unpack _).
  revert journal Hj. apply Forall_forall.
  apply (bool_decide_unpack _). vm_compute. exact I.
Defined.








